(** * Token lifecycle of aria-data-collector

    A shallow embedding of [src/token-storage.js] (the Token Store) and of
    [src/fitbit-client.js] (the API Client), and the properties of the
    specification proved or refuted on it.

    The program is sequential JavaScript that reads and writes one file,
    reads the clock, talks to an HTTP server and throws exceptions.  It is
    modelled in a monad of its own: a computation takes the [world] (the
    entry at the token file's path, the clock, the replies the network
    will give) and yields a completion (a returned value or a thrown
    error), the world it leaves and the events it emitted.

    What is abstracted, once and for all:
    - numbers are the integers (and NaN), of any size; the arithmetic of
      doubles agrees with theirs on the integers of magnitude at most
      2^53, and a property that compares the results of the two is stated
      for these ([exact_double]);
    - the second argument of [fetch] is kept as the expression that
      builds it: the conversions to strings in it (a template literal, the
      form of the token request) are not interpreted, and a property that
      depends on one is stated for a value whose conversion runs no code
      ([primitive]);
    - a text (the file's content, a response body) is kept up to the JSON
      codec of the runtime: it is either the document of a value or
      something [JSON.parse] rejects;
    - console output is left out. *)

From Stdlib Require Import ZArith List String Ascii Bool Lia DecimalString.
Import ListNotations.
Open Scope string_scope.
Open Scope Z_scope.

(* ================================================================== *)
(** * The values and operators of the language that the program uses  *)
(* ================================================================== *)

Module JS.

(** A number: an integer, or NaN. *)
Inductive number : Type :=
| Int (z : Z)
| NaN.

Coercion Int : Z >-> number.

(** A value.  The properties of an object are kept in insertion order;
    a property is read at its first binding. *)
#[warnings="-register-all"]
Inductive value : Type :=
| VUndefined
| VNull
| VBool (b : bool)
| VNum (n : number)
| VStr (s : string)
| VArr (items : list value)
| VObj (props : list (string * value)).

(** [!!v]: every value is truthy but undefined, null, false, 0, NaN and
    the empty string. *)
Definition truthy (v : value) : bool :=
  match v with
  | VUndefined | VNull => false
  | VBool b => b
  | VNum (Int z) => negb (z =? 0)
  | VNum NaN => false
  | VStr s => negb (String.eqb s EmptyString)
  | VArr _ | VObj _ => true
  end.

Fixpoint lookup (k : string) (props : list (string * value)) : option value :=
  match props with
  | [] => None
  | (k', v) :: rest => if String.eqb k k' then Some v else lookup k rest
  end.

(** [v.k] where it cannot throw: the own property of an object, and
    undefined on every other value (none of the names the program reads is
    an index of an array or a built-in property of a primitive). *)
Definition field (v : value) (k : string) : value :=
  match v with
  | VObj props => match lookup k props with Some x => x | None => VUndefined end
  | _ => VUndefined
  end.

(** Whether [v.k] throws a TypeError: on undefined and on null. *)
Definition nullish (v : value) : bool :=
  match v with
  | VUndefined | VNull => true
  | _ => false
  end.

Definition number_to_string (n : number) : string :=
  match n with
  | Int z => NilZero.string_of_int (Z.to_int z)
  | NaN => "NaN"
  end.

Definition join (parts : list string) : string := String.concat "," parts.

(** ToString, as the addition operator applies it. *)
Fixpoint to_string (v : value) : string :=
  match v with
  | VUndefined => "undefined"
  | VNull => "null"
  | VBool true => "true"
  | VBool false => "false"
  | VNum n => number_to_string n
  | VStr s => s
  | VArr items =>
      join (List.map (fun x => if nullish x then EmptyString else to_string x) items)
  | VObj _ => "[object Object]"
  end.

(** ToPrimitive: arrays and plain objects become their strings. *)
Definition to_primitive (v : value) : value :=
  match v with
  | VArr _ | VObj _ => VStr (to_string v)
  | _ => v
  end.

Definition is_string (v : value) : bool :=
  match v with
  | VStr _ => true
  | _ => false
  end.

Section Coercions.

(** StringToNumber of the engine (it trims, reads signs, exponents and
    radix prefixes); its result is taken as given. *)
Variable StringToNumber : string -> number.

Definition to_number (v : value) : number :=
  match to_primitive v with
  | VUndefined => NaN
  | VNull => Int 0
  | VBool true => Int 1
  | VBool false => Int 0
  | VNum n => n
  | VStr s => StringToNumber s
  | VArr _ | VObj _ => NaN
  end.

Definition lift2 (op : Z -> Z -> Z) (a b : number) : number :=
  match a, b with
  | Int x, Int y => Int (op x y)
  | _, _ => NaN
  end.

(** [a * b] *)
Definition mul (a b : value) : number := lift2 Z.mul (to_number a) (to_number b).

(** [a - b] *)
Definition sub (a b : value) : number := lift2 Z.sub (to_number a) (to_number b).

(** [a + b]: concatenation as soon as one side is a string. *)
Definition add (a b : value) : value :=
  let pa := to_primitive a in
  let pb := to_primitive b in
  if is_string pa || is_string pb
  then VStr (to_string pa ++ to_string pb)
  else VNum (lift2 Z.add (to_number pa) (to_number pb)).

End Coercions.

(** [a >= b] on two numbers: false as soon as one is NaN. *)
Definition ge (a b : number) : bool :=
  match a, b with
  | Int x, Int y => y <=? x
  | _, _ => false
  end.

(** The properties that [JSON.stringify] writes: those that are not
    undefined, each with its value written by [f]. *)
Definition written (f : value -> value) : list (string * value) -> list (string * value) :=
  fix go (l : list (string * value)) : list (string * value) :=
    match l with
    | [] => []
    | (k, VUndefined) :: rest => go rest
    | (k, x) :: rest => (k, f x) :: go rest
    end.

(** What [JSON.stringify] keeps of a value below the top level: an
    undefined property is dropped, an undefined item and NaN become
    null. *)
Fixpoint serialize (v : value) : value :=
  match v with
  | VUndefined => VNull
  | VNum NaN => VNull
  | VArr items => VArr (List.map serialize items)
  | VObj props => VObj (written serialize props)
  | _ => v
  end.

(** A value as [JSON.parse] produces them: no undefined and no NaN
    anywhere in it. *)
Fixpoint is_json (v : value) : bool :=
  match v with
  | VUndefined => false
  | VNum NaN => false
  | VArr items => forallb is_json items
  | VObj props => forallb (fun kv => is_json (snd kv)) props
  | _ => true
  end.

(** A text up to the JSON codec. *)
Inductive text : Type :=
| Document (v : value)
| Malformed (raw : string).

End JS.

(* ================================================================== *)
(** * The world and the monad of the program                          *)
(* ================================================================== *)

Module Effects.
Import JS.

(** What sits at the path [TOKEN_FILE]. *)
Inductive entry : Type :=
| Missing
| Regular (content : text)
| Directory.

(** An HTTP response: [response.status] and the body that
    [response.json()] will parse. *)
Record response : Type := Response { status : Z; body : text }.

(** One round trip of [fetch]: the milliseconds that pass while the call
    is awaited, and the response ([None]: the promise rejects, the
    server was not reached). *)
Record exchange : Type := Exchange { elapsed : Z; reply : option response }.

Record world : Type := World {
  tokens_json : entry;        (* the entry at TOKEN_FILE *)
  read_only : bool;           (* the file system refuses writes and removals *)
  now : Z;                    (* what Date.now() reads, epoch milliseconds *)
  network : list exchange     (* the round trips to come, in order *)
}.

(** The message of an error: a literal, or a template literal around
    [JSON.stringify] of a value. *)
Inductive message : Type :=
| Literal (s : string)
| Around (before : string) (json : value) (after : string).

Inductive error : Type :=
| FitbitApiError (msg : message) (statusCode : Z) (errors : value)
| FitbitAuthError (msg : message)
| TypeError (msg : string)
| SyntaxError
| SystemError (code : string).

(** [e instanceof FitbitAuthError] *)
Definition is_auth_error (e : error) : bool :=
  match e with
  | FitbitAuthError _ => true
  | _ => false
  end.

(** The second argument of [fetch], kept as the expression that builds
    it. *)
Inductive init : Type :=
| RefreshForm (client_id client_secret refresh_token : value)
    (* method POST, Authorization: Basic base64(`${id}:${secret}`),
       body grant_type=refresh_token&refresh_token=... *)
| WithBearer (options : value) (access_token : value).
    (* {...options, headers: {Authorization: `Bearer ${access_token}`,
        Accept: 'application/json', ...options.headers}} *)

(** What a computation leaves behind for the properties to speak about.
    [Refreshing] and [Saving] mark the entry into [refreshAccessToken]
    and into [saveTokens]; [Fetch] is a call of [fetch]. *)
Inductive event : Type :=
| Refreshing
| Saving (tokens : value)
| Fetch (url : string) (i : init).

Inductive completion (A : Type) : Type :=
| Return (a : A)
| Throw (e : error).

Arguments Return {A} a.
Arguments Throw {A} e.

Record run (A : Type) : Type := Run {
  completion_of : completion A;
  world_of : world;
  events_of : list event
}.

Arguments Run {A} _ _ _.
Arguments completion_of {A} _.
Arguments world_of {A} _.
Arguments events_of {A} _.

Definition M (A : Type) : Type := world -> run A.

Definition ret {A} (a : A) : M A := fun w => Run (Return a) w [].

Definition throw {A} (e : error) : M A := fun w => Run (Throw e) w [].

(** A run with earlier events put in front of its own. *)
Definition after {A} (ev : list event) (r : run A) : run A :=
  match r with
  | Run c w ev' => Run c w (ev ++ ev')
  end.

Definition bind {A B} (m : M A) (k : A -> M B) : M B :=
  fun w =>
    match m w with
    | Run (Return a) w1 ev1 => after ev1 (k a w1)
    | Run (Throw e) w1 ev1 => Run (Throw e) w1 ev1
    end.

(** [try { m } catch (e) { handler e }] *)
Definition try_catch {A} (m : M A) (handler : error -> M A) : M A :=
  fun w =>
    match m w with
    | Run (Throw e) w1 ev1 => after ev1 (handler e w1)
    | r => r
    end.

Definition emit (e : event) : M unit := fun w => Run (Return tt) w [e].

Declare Scope js_scope.
Delimit Scope js_scope with js.
Notation "x <- m ;; k" := (bind m (fun x => k))
  (at level 61, m at next level, right associativity) : js_scope.
Notation "m ;; k" := (bind m (fun _ => k))
  (at level 61, right associativity) : js_scope.
Open Scope js_scope.

(** [v.k], which throws on undefined and null. *)
Definition get (v : value) (k : string) : M value :=
  if nullish v
  then throw (TypeError "Cannot read properties of undefined or null")
  else ret (field v k).

(** [Date.now()] *)
Definition Date_now : M Z := fun w => Run (Return (now w)) w [].

(** [fs.existsSync(TOKEN_FILE)] *)
Definition existsSync : M bool :=
  fun w =>
    Run (Return match tokens_json w with Missing => false | _ => true end) w [].

(** [fs.readFileSync(TOKEN_FILE, 'utf8')] *)
Definition readFileSync : M text :=
  fun w =>
    match tokens_json w with
    | Regular content => Run (Return content) w []
    | Directory => Run (Throw (SystemError "EISDIR")) w []
    | Missing => Run (Throw (SystemError "ENOENT")) w []
    end.

Definition with_entry (e : entry) (w : world) : world :=
  World e (read_only w) (now w) (network w).

(** [fs.writeFileSync(TOKEN_FILE, data)]; [None] is the argument
    undefined, which is refused.  A directory at the path is refused as
    such, on a read-only file system too. *)
Definition writeFileSync (data : option text) : M unit :=
  fun w =>
    match data with
    | None => Run (Throw (TypeError "ERR_INVALID_ARG_TYPE")) w []
    | Some t =>
        match tokens_json w with
        | Directory => Run (Throw (SystemError "EISDIR")) w []
        | _ =>
            if read_only w then Run (Throw (SystemError "EROFS")) w []
            else Run (Return tt) (with_entry (Regular t) w) []
        end
    end.

(** [fs.unlinkSync(TOKEN_FILE)] *)
Definition unlinkSync : M unit :=
  fun w =>
    match tokens_json w with
    | Missing => Run (Throw (SystemError "ENOENT")) w []
    | Directory => Run (Throw (SystemError "EISDIR")) w []
    | Regular _ =>
        if read_only w then Run (Throw (SystemError "EROFS")) w []
        else Run (Return tt) (with_entry Missing w) []
    end.

(** [JSON.parse(data)] *)
Definition JSON_parse (data : text) : M value :=
  match data with
  | Document v => ret v
  | Malformed _ => throw SyntaxError
  end.

(** [JSON.stringify(v, null, 2)]: no text for undefined. *)
Definition JSON_stringify (v : value) : option text :=
  match v with
  | VUndefined => None
  | _ => Some (Document (serialize v))
  end.

(** [await fetch(url, i)]: the next round trip of the network; a network
    that has nothing more to give is unreachable. *)
Definition fetch (url : string) (i : init) : M response :=
  fun w =>
    match network w with
    | [] => Run (Throw (TypeError "fetch failed")) w [Fetch url i]
    | x :: rest =>
        let w1 := World (tokens_json w) (read_only w) (now w + elapsed x) rest in
        match reply x with
        | Some r => Run (Return r) w1 [Fetch url i]
        | None => Run (Throw (TypeError "fetch failed")) w1 [Fetch url i]
        end
    end.

(** [response.ok] *)
Definition ok (r : response) : bool := (200 <=? status r) && (status r <=? 299).

(** [response.json()] *)
Definition json (r : response) : M value := JSON_parse (body r).

End Effects.

(* ================================================================== *)
(** * src/token-storage.js                                            *)
(* ================================================================== *)

Module TokenStorage.
Import JS Effects.

Definition loadTokens : M value :=
  try_catch
    (present <- existsSync ;;
     if negb present then ret VNull
     else
       data <- readFileSync ;;
       JSON_parse data)
    (fun error => ret VNull).

Definition saveTokens (tokens : value) : M unit :=
  emit (Saving tokens) ;;
  try_catch
    (access_token <- get tokens "access_token" ;;
     refresh_token <- get tokens "refresh_token" ;;
     token_type <- get tokens "token_type" ;;
     expires_in <- get tokens "expires_in" ;;
     scope <- get tokens "scope" ;;
     user_id <- get tokens "user_id" ;;
     saved_at <- Date_now ;;
     let data := VObj [("access_token", access_token);
                       ("refresh_token", refresh_token);
                       ("token_type", token_type);
                       ("expires_in", expires_in);
                       ("scope", scope);
                       ("user_id", user_id);
                       ("saved_at", VNum saved_at)] in
     writeFileSync (JSON_stringify data))
    (fun error => throw error).

Section Expiry.

Variable StringToNumber : string -> number.

Definition isTokenExpired : M bool :=
  tokens <- loadTokens ;;
  if negb (truthy tokens)
     || negb (truthy (field tokens "saved_at"))
     || negb (truthy (field tokens "expires_in"))
  then ret true
  else
    let expiresAt :=
      add StringToNumber (field tokens "saved_at")
        (VNum (mul StringToNumber (field tokens "expires_in") (VNum 1000))) in
    let bufferTime := 5 * 60 * 1000 in
    t <- Date_now ;;
    ret (ge t (sub StringToNumber expiresAt (VNum bufferTime))).

End Expiry.

Definition clearTokens : M unit :=
  try_catch
    (present <- existsSync ;;
     if present then unlinkSync else ret tt)
    (fun error => ret tt).

End TokenStorage.

(* ================================================================== *)
(** * src/fitbit-client.js                                            *)
(* ================================================================== *)

Module FitbitClient.
Import JS Effects TokenStorage.

Definition API_BASE_URL : string := "https://api.fitbit.com".

(** A text between double quotes. *)
Definition quoted (s : string) : string :=
  String "034"%char (s ++ String "034"%char EmptyString).

Section Client.

Variable StringToNumber : string -> number.

(** [process.env.FITBIT_CLIENT_ID], [process.env.FITBIT_CLIENT_SECRET]:
    a string each, or undefined. *)
Variables CLIENT_ID CLIENT_SECRET : value.

Definition refreshAccessToken : M value :=
  emit Refreshing ;;
  tokens <- loadTokens ;;
  if negb (truthy tokens) || negb (truthy (field tokens "refresh_token"))
  then throw (FitbitAuthError (Literal
         "No refresh token available. Please re-authorize the application."))
  else
    response <- fetch (API_BASE_URL ++ "/oauth2/token")
                  (RefreshForm CLIENT_ID CLIENT_SECRET (field tokens "refresh_token")) ;;
    if negb (ok response)
    then
      error <- json response ;;
      if (status response =? 401) || (status response =? 400)
      then throw (FitbitAuthError
                    (Around "Token refresh failed: " error ". Please re-authorize."))
      else throw (FitbitApiError
                    (Around "Token refresh failed: " error EmptyString) (status response) error)
    else
      newTokens <- json response ;;
      saveTokens newTokens ;;
      ret newTokens.

Definition getValidAccessToken : M value :=
  tokens <- loadTokens ;;
  if negb (truthy tokens)
  then throw (FitbitAuthError (Literal
         ("No tokens found. Please run " ++ quoted "npm run auth" ++ " to authorize.")))
  else
    expired <- isTokenExpired StringToNumber ;;
    tokens <- (if expired then refreshAccessToken else ret tokens) ;;
    get tokens "access_token".

(** [options = {}]: the default takes the place of undefined only. *)
Definition or_default (options : value) : value :=
  match options with
  | VUndefined => VObj []
  | _ => options
  end.

Definition apiRequest (endpoint : string) (options : value) : M value :=
  let options := or_default options in
  accessToken <- getValidAccessToken ;;
  let url := if String.prefix "http" endpoint
             then endpoint
             else API_BASE_URL ++ endpoint in
  get options "headers" ;;
  response <- fetch url (WithBearer options accessToken) ;;
  if status response =? 401
  then
    (* what the try block returns is a promise: it settles after the
       block is left, out of reach of the catch clause *)
    returned <-
      try_catch
        (newTokens <- refreshAccessToken ;;
         access_token <- get newTokens "access_token" ;;
         get options "headers" ;;
         retryResponse <- fetch url (WithBearer options access_token) ;;
         if negb (ok retryResponse)
         then
           error <- json retryResponse ;;
           throw (FitbitApiError (Around "API request failed: " error EmptyString)
                    (status retryResponse) error)
         else ret (json retryResponse))
        (fun refreshError =>
           if is_auth_error refreshError
           then throw refreshError
           else throw (FitbitAuthError (Literal
                  "Authentication failed. Please re-authorize the application."))) ;;
    returned
  else if negb (ok response)
  then
    error <- json response ;;
    throw (FitbitApiError (Around "API request failed: " error EmptyString)
             (status response) error)
  else json response.

Definition getProfile : M value :=
  apiRequest "/1/user/-/profile.json" VUndefined.

Definition getWeightLogs (startDate endDate : string) : M value :=
  apiRequest ("/1/user/-/body/log/weight/date/" ++ startDate ++ "/" ++ endDate ++ ".json")
    VUndefined.

Definition getBodyFatLogs (startDate endDate : string) : M value :=
  apiRequest ("/1/user/-/body/log/fat/date/" ++ startDate ++ "/" ++ endDate ++ ".json")
    VUndefined.

Definition getWeightGoal : M value :=
  apiRequest "/1/user/-/body/log/weight/goal.json" VUndefined.

Definition getBodyFatGoal : M value :=
  apiRequest "/1/user/-/body/log/fat/goal.json" VUndefined.

End Client.

End FitbitClient.

(* ================================================================== *)
(** * src/index.js                                                    *)
(* ================================================================== *)

Module Index.
Import JS Effects TokenStorage FitbitClient.

(** How the process ends: by [process.exit(code)], or at the end of
    [main]. *)
Inductive ending : Type :=
| Exited (code : Z)
| Finished.

(** [s.split('T')[0]] *)
Fixpoint before_T (s : string) : string :=
  match s with
  | EmptyString => EmptyString
  | String c rest => if Ascii.eqb c "T" then EmptyString else String c (before_T rest)
  end.

(** [v.length] of a truthy value: the number of items of an array, of
    characters of a string, and the property of that name otherwise. *)
Definition length_of (v : value) : value :=
  match v with
  | VArr items => VNum (Int (Z.of_nat (List.length items)))
  | VStr s => VNum (Int (Z.of_nat (String.length s)))
  | _ => field v "length"
  end.

(** [v.forEach(callback)]: only an array has the method. *)
Definition forEach (v : value) (callback : value -> M unit) : M unit :=
  match v with
  | VArr items =>
      (fix each (l : list value) : M unit :=
         match l with
         | [] => ret tt
         | entry :: rest => callback entry ;; each rest
         end) items
  | _ => throw (TypeError "forEach is not a function")
  end.

Section Main.

Variable StringToNumber : string -> number.
Variables CLIENT_ID CLIENT_SECRET : value.

(** Of [Date], what the runtime computes: the text of [toISOString()] at
    a time, and the time that [setDate(getDate() - days)] sets, in the
    local time zone. *)
Variable toISOString : Z -> string.
Variable days_earlier : Z -> Z -> Z.

(** [v > 0] *)
Definition positive (v : value) : bool :=
  match to_number StringToNumber v with
  | Int z => 0 <? z
  | NaN => false
  end.

Definition formatDate (date : Z) : string := before_T (toISOString date).

Definition getDateRange (days : Z) : M (string * string) :=
  endDate <- Date_now ;;
  startDate <- Date_now ;;
  let startDate := days_earlier days startDate in
  ret (formatDate startDate, formatDate endDate).

(** What [main] prints is left out; of the expressions that it prints,
    the property reads are kept, since they can throw. *)
Definition main : M ending :=
  tokens <- loadTokens ;;
  if negb (truthy tokens)
  then ret (Exited 1)
  else
    try_catch
      (profileData <- getProfile StringToNumber CLIENT_ID CLIENT_SECRET ;;
       user <- get profileData "user" ;;
       get user "displayName" ;;
       get user "memberSince" ;;
       range <- getDateRange 30 ;;
       weightData <- getWeightLogs StringToNumber CLIENT_ID CLIENT_SECRET
                       (fst range) (snd range) ;;
       get user "weightUnit" ;;
       weight <- get weightData "weight" ;;
       (if truthy weight && positive (length_of weight)
        then forEach weight (fun entry => get entry "weight" ;; get entry "date" ;; ret tt)
        else ret tt) ;;
       fatData <- getBodyFatLogs StringToNumber CLIENT_ID CLIENT_SECRET
                    (fst range) (snd range) ;;
       fat <- get fatData "fat" ;;
       (if truthy fat && positive (length_of fat)
        then forEach fat (fun entry => get entry "date" ;; get entry "fat" ;; ret tt)
        else ret tt) ;;
       ret Finished)
      (fun error => ret (Exited 1)).

End Main.

End Index.

(* ================================================================== *)
(** * Properties                                                      *)
(* ================================================================== *)

Import JS Effects TokenStorage FitbitClient.
Open Scope list_scope.

(** ** The vocabulary of the properties *)

(** The URL of the token endpoint. *)
Definition token_url : string := (API_BASE_URL ++ "/oauth2/token")%string.

(** What [loadTokens] reads in a world. *)
Definition stored (w : world) : value :=
  match tokens_json w with
  | Regular (Document v) => v
  | _ => VNull
  end.

(** The object literal that [saveTokens] builds. *)
Definition normalized (tokens : value) (saved_at : Z) : value :=
  VObj [("access_token", field tokens "access_token");
        ("refresh_token", field tokens "refresh_token");
        ("token_type", field tokens "token_type");
        ("expires_in", field tokens "expires_in");
        ("scope", field tokens "scope");
        ("user_id", field tokens "user_id");
        ("saved_at", VNum saved_at)].

(** The fields that [saveTokens] copies from its argument. *)
Definition copied : list string :=
  ["access_token"; "refresh_token"; "token_type"; "expires_in"; "scope"; "user_id"].

(** The expiry condition in the words of the specification: no record,
    or no [saved_at], or no [expires_in], or the time has come. *)
Definition spec_isExpired (w : world) : Prop :=
  stored w = VNull \/
  field (stored w) "saved_at" = VUndefined \/
  field (stored w) "expires_in" = VUndefined \/
  exists saved_at expires_in : Z,
    field (stored w) "saved_at" = VNum (Int saved_at) /\
    field (stored w) "expires_in" = VNum (Int expires_in) /\
    saved_at + expires_in * 1000 - 300000 <= now w.

(** An integer that a double holds exactly: at most 2^53 in magnitude. *)
Definition exact_double (z : Z) : Prop :=
  - 9007199254740992 <= z <= 9007199254740992.

(** The arithmetic of the expiry predicate is exact in doubles on two
    fields: they and every intermediate result are integers that doubles
    hold, so that the doubles of the program and the integers of the
    model compute the same. *)
Definition exact_expiry (saved_at expires_in : Z) : Prop :=
  exact_double saved_at /\ exact_double expires_in /\
  exact_double (expires_in * 1000) /\
  exact_double (saved_at + expires_in * 1000) /\
  exact_double (saved_at + expires_in * 1000 - 300000).

(** A value that is converted to a string without running any code of
    its own: every value but an array and an object.  The conversions of
    template literals and of the form of the token request are not
    modelled; where a property depends on one, it is stated for a
    primitive. *)
Definition primitive (v : value) : bool :=
  match v with
  | VArr _ | VObj _ => false
  | _ => true
  end.

(** The world once a round trip has been awaited. *)
Definition awaited (w : world) (x : exchange) (rest : list exchange) : world :=
  World (tokens_json w) (read_only w) (now w + elapsed x) rest.

(** Counting what a call did. *)
Definition is_refresh (e : event) : bool :=
  match e with Refreshing => true | _ => false end.

Definition is_save (e : event) : bool :=
  match e with Saving _ => true | _ => false end.

Definition is_token_request (e : event) : bool :=
  match e with Fetch _ (RefreshForm _ _ _) => true | _ => false end.

Definition is_resource_request (e : event) : bool :=
  match e with Fetch _ (WithBearer _ _) => true | _ => false end.

Definition is_fetch (e : event) : bool :=
  match e with Fetch _ _ => true | _ => false end.

Definition count (p : event -> bool) (ev : list event) : nat :=
  List.length (List.filter p ev).

(** Whether a refresh token is on record. *)
Definition has_refresh_token (w : world) : bool :=
  truthy (stored w) && truthy (field (stored w) "refresh_token").

(** The events of a refresh: its mark, then at most one request to the
    token endpoint, then at most one save. *)
Inductive refresh_trace : list event -> Prop :=
| no_token_trace : refresh_trace [Refreshing]
| asked_trace url id secret token :
    refresh_trace [Refreshing; Fetch url (RefreshForm id secret token)]
| saved_trace url id secret token newTokens :
    refresh_trace [Refreshing; Fetch url (RefreshForm id secret token); Saving newTokens].

Definition no_tokens_found : error :=
  FitbitAuthError (Literal
    ("No tokens found. Please run " ++ quoted "npm run auth" ++ " to authorize.")%string).

(** The URL that [apiRequest] asks for an endpoint. *)
Definition url_of (endpoint : string) : string :=
  if String.prefix "http" endpoint then endpoint else (API_BASE_URL ++ endpoint)%string.

Definition authentication_failed : error :=
  FitbitAuthError (Literal "Authentication failed. Please re-authorize the application.").

Definition request_failed (statusCode : Z) (errors : value) : error :=
  FitbitApiError (Around "API request failed: " errors EmptyString) statusCode errors.

(** The answer to a response that is not a 401. *)
Definition settled (r : response) : completion value :=
  match body r with
  | Malformed _ => Throw SyntaxError
  | Document v => if ok r then Return v else Throw (request_failed (status r) v)
  end.

(** The answer of the 401 branch to what the retry met. *)
Definition retried (x : option response) : completion value :=
  match x with
  | None => Throw authentication_failed
  | Some r =>
      if ok r
      then match body r with
           | Document v => Return v
           | Malformed _ => Throw SyntaxError
           end
      else Throw authentication_failed
  end.

Definition no_refresh_token : error :=
  FitbitAuthError (Literal
    "No refresh token available. Please re-authorize the application.").

(** The events of [apiRequest] from its first resource request on: none
    (the request object could not be built), the request alone, the
    request and a refresh, or the request, a refresh and the retry. *)
Inductive answer_trace : list event -> Prop :=
| not_asked : answer_trace []
| asked_once url options token :
    answer_trace [Fetch url (WithBearer options token)]
| asked_and_refreshed url options token rt :
    refresh_trace rt ->
    answer_trace (Fetch url (WithBearer options token) :: rt)
| asked_twice url options token rt url' options' token' :
    refresh_trace rt ->
    answer_trace (Fetch url (WithBearer options token) :: rt
                  ++ [Fetch url' (WithBearer options' token')]).

(** The events before the first one that satisfies [p], and those after
    it. *)
Fixpoint before (p : event -> bool) (ev : list event) : list event :=
  match ev with
  | [] => []
  | e :: rest => if p e then [] else e :: before p rest
  end.

Fixpoint behind (p : event -> bool) (ev : list event) : list event :=
  match ev with
  | [] => []
  | e :: rest => if p e then rest else behind p rest
  end.

(** The same world read at another time. *)
Definition at_time (t : Z) (w : world) : world :=
  World (tokens_json w) (read_only w) t (network w).

(** The names of the properties of the record that [saveTokens] writes. *)
Definition record_fields : list string := copied ++ ["saved_at"].

(** What a call of [apiRequest] for [url] with [options], by a client
    with the credentials [id] and [secret], may emit. *)
Definition expected (id secret : value) (url : string) (options : value)
    (e : event) : Prop :=
  match e with
  | Refreshing => True
  | Saving _ => True
  | Fetch u (RefreshForm i s _) => u = token_url /\ i = id /\ s = secret
  | Fetch u (WithBearer o _) => u = url /\ o = options
  end.

(** What a call may have done to the token file between two worlds: left
    it alone, or replaced it by the record of tokens that it saved. *)
Definition kept_or_saved (w w' : world) (ev : list event) : Prop :=
  read_only w' = read_only w /\
  (tokens_json w' = tokens_json w \/
   exists newTokens t,
     In (Saving newTokens) ev /\
     tokens_json w' = Regular (Document (serialize (normalized newTokens t)))).

(** A computation that leaves the world as it is and emits nothing. *)
Definition silent {A} (m : M A) : Prop :=
  forall w, world_of (m w) = w /\ events_of (m w) = [].

(** The steps of the client that the proofs follow one at a time: each
    is a part of a function of the source, cut out as it stands. *)
Module Steps.

Section Steps.

Variable StringToNumber : string -> number.
Variables CLIENT_ID CLIENT_SECRET : value.

Abbreviation refresh := (refreshAccessToken CLIENT_ID CLIENT_SECRET).

(** The request that [refreshAccessToken] sends in a world. *)
Definition token_request (w : world) : event :=
  Fetch token_url
    (RefreshForm CLIENT_ID CLIENT_SECRET (field (stored w) "refresh_token")).

(** What [refreshAccessToken] does once the token endpoint has been asked:
    it depends on the outcome of the round trip only. *)
Definition exchanged (tokens : value) : M value :=
  (response <- fetch token_url
                 (RefreshForm CLIENT_ID CLIENT_SECRET (field tokens "refresh_token")) ;;
   if negb (ok response)
   then
     error <- json response ;;
     if (status response =? 401) || (status response =? 400)
     then throw (FitbitAuthError
                   (Around "Token refresh failed: " error ". Please re-authorize."))
     else throw (FitbitApiError
                   (Around "Token refresh failed: " error EmptyString) (status response) error)
   else
     newTokens <- json response ;;
     saveTokens newTokens ;;
     ret newTokens)%js.

(** What [isTokenExpired] answers in a world. *)
Definition expired (w : world) : bool :=
  match completion_of (isTokenExpired StringToNumber w) with
  | Return b => b
  | Throw _ => true
  end.

(** The branch of [apiRequest] for a 401: the try statement, then the
    promise that it returned. *)
Definition reactive (url : string) (options : value) : M value :=
  (returned <-
     try_catch
       (newTokens <- refresh ;;
        access_token <- get newTokens "access_token" ;;
        get options "headers" ;;
        retryResponse <- fetch url (WithBearer options access_token) ;;
        if negb (ok retryResponse)
        then
          error <- json retryResponse ;;
          throw (FitbitApiError (Around "API request failed: " error EmptyString)
                   (status retryResponse) error)
        else ret (json retryResponse))
       (fun refreshError =>
          if is_auth_error refreshError
          then throw refreshError
          else throw (FitbitAuthError (Literal
                 "Authentication failed. Please re-authorize the application."))) ;;
   returned)%js.

(** [apiRequest] from the point where the access token is known. *)
Definition issued (url : string) (options accessToken : value) : M value :=
  (get options "headers" ;;
   response <- fetch url (WithBearer options accessToken) ;;
   if status response =? 401
   then reactive url options
   else if negb (ok response)
   then
     error <- json response ;;
     throw (FitbitApiError (Around "API request failed: " error EmptyString)
              (status response) error)
   else json response)%js.

End Steps.

End Steps.

(** ** The worlds of the concrete runs *)

(** None of the runs below computes with a string, so that the results
    of StringToNumber do not matter to them. *)
Definition unused_StringToNumber : string -> number := fun _ => NaN.

Definition ID : value := VStr "23ABCD".
Definition SECRET : value := VStr "0123456789abcdef".

Definition tokens_of (access refresh : string) (expires_in : Z) : value :=
  VObj [("access_token", VStr access);
        ("refresh_token", VStr refresh);
        ("token_type", VStr "Bearer");
        ("expires_in", VNum expires_in);
        ("scope", VStr "weight profile");
        ("user_id", VStr "ABC123")].

Definition record_of (access refresh : string) (expires_in saved_at : Z) : value :=
  VObj [("access_token", VStr access);
        ("refresh_token", VStr refresh);
        ("token_type", VStr "Bearer");
        ("expires_in", VNum expires_in);
        ("scope", VStr "weight profile");
        ("user_id", VStr "ABC123");
        ("saved_at", VNum saved_at)].

Definition file_of (record : value) : entry := Regular (Document record).

Definition answers (statusCode : Z) (b : text) : exchange :=
  Exchange 150 (Some (Response statusCode b)).

Definition errors_of (errorType : string) : value :=
  VObj [("errors", VArr [VObj [("errorType", VStr errorType)]]);
        ("success", VBool false)].

Definition profile : value :=
  VObj [("user", VObj [("displayName", VStr "Ian"); ("memberSince", VStr "2015-01-01")])].

Definition profile_endpoint : string := "/1/user/-/profile.json".

(** The tokens were saved at 1700000000000 for eight hours. *)
Definition t0 : Z := 1700000000000.

(** A world one minute after the save: the tokens are valid. *)
Definition valid_world (net : list exchange) : world :=
  World (file_of (record_of "access-1" "refresh-1" 28800 t0)) false (t0 + 60000) net.

(** A world nine hours after the save: the tokens have expired. *)
Definition expired_world (net : list exchange) : world :=
  World (file_of (record_of "access-1" "refresh-1" 28800 t0)) false (t0 + 32400000) net.

Definition empty_disk : world := World Missing false t0 [].

(** The token file holds the document [0]. *)
Definition zero_disk : world := World (file_of (VNum (Int 0))) false t0 [].

Definition written_disk : world :=
  World (file_of (record_of "access-1" "refresh-1" 28800 t0)) false t0 [].

(** The stored state of the counterexample to C1: a record whose
    [saved_at] is there and is 0, read one second after the epoch. *)
Definition epoch_world : world :=
  World (file_of (record_of "access-1" "refresh-1" 3600 0)) false 1000 [].

Definition quiet_world : world := valid_world [].

(** The token endpoint answers 401 with a page that is not JSON. *)
Definition html_401_world : world :=
  valid_world [answers 401 (Malformed "<html><body>Unauthorized</body></html>")].

(** The token endpoint answers 400 and 503, with JSON bodies. *)
Definition rejected_world (statusCode : Z) : world :=
  valid_world [answers statusCode (Document (errors_of "invalid_grant"))].

(** No refresh token on record. *)
Definition tokenless_world : world :=
  World (file_of (VObj [("access_token", VStr "access-1")])) false t0
        [answers 200 (Document (tokens_of "access-2" "refresh-2" 28800))].

(** The token endpoint grants the refresh. *)
Definition granted_world : world :=
  valid_world [answers 200 (Document (tokens_of "access-2" "refresh-2" 28800))].

(** The example of the specification: tokens issued for an hour, read
    one minute before they run out, inside the five minutes of the
    buffer.  The network grants the refresh, then serves the profile. *)
Definition near_world : world :=
  World (file_of (record_of "access-1" "refresh-1" 3600 t0)) false
        (t0 + 3600 * 1000 - 60000)
        [answers 200 (Document (tokens_of "access-2" "refresh-2" 28800));
         answers 200 (Document profile)].

(** The resource answers 429 with a JSON body, to valid tokens. *)
Definition limited_world : world :=
  valid_world [answers 429 (Document (errors_of "rate_limit"))].

(** The resource answers 429 with a body that is not JSON. *)
Definition plain_429_world : world :=
  valid_world [answers 429 (Malformed "Too Many Requests")].

(** The tokens have expired; the refresh is granted; the resource then
    answers 429 with a JSON body. *)
Definition expired_429_world : world :=
  expired_world [answers 200 (Document (tokens_of "access-2" "refresh-2" 28800));
                 answers 429 (Document (errors_of "rate_limit"))].

(** Valid tokens; the resource answers 401; the refresh is granted; the
    retry is answered 500 with a JSON body. *)
Definition retry_500_world : world :=
  valid_world [answers 401 (Document (errors_of "expired_token"));
               answers 200 (Document (tokens_of "access-2" "refresh-2" 28800));
               answers 500 (Document (errors_of "system"))].

(** The same call when the retry is answered 200: it returns the parsed
    body of the retry. *)
Definition retry_200_world : world :=
  valid_world [answers 401 (Document (errors_of "expired_token"));
               answers 200 (Document (tokens_of "access-2" "refresh-2" 28800));
               answers 200 (Document profile)].

(** Expired tokens; the pre-emptive refresh is granted; the resource
    answers 401 all the same; the second refresh is granted; the retry
    is served. *)
Definition twice_world : world :=
  expired_world [answers 200 (Document (tokens_of "access-2" "refresh-2" 28800));
                 answers 401 (Document (errors_of "expired_token"));
                 answers 200 (Document (tokens_of "access-3" "refresh-3" 28800));
                 answers 200 (Document profile)].

(** A read-only file system that holds a record. *)
Definition locked_world : world :=
  World (file_of (record_of "access-1" "refresh-1" 28800 t0)) true (t0 + 60000) [].

(** A read-only file system with a directory at the path of the file. *)
Definition blocked_world : world := World Directory true (t0 + 60000) [].

(** Tokens that the provider issued with more than the fields that the
    record keeps. *)
Definition verbose_tokens : value :=
  VObj [("access_token", VStr "access-2");
        ("refresh_token", VStr "refresh-2");
        ("token_type", VStr "Bearer");
        ("expires_in", VNum 28800);
        ("scope", VStr "weight profile");
        ("user_id", VStr "ABC123");
        ("id_token", VStr "eyJhbGciOi")].

(** Valid tokens, and a resource that serves the profile. *)
Definition served_world : world := valid_world [answers 200 (Document profile)].

(** Valid tokens; the resource answers 401; the token endpoint then
    answers 503. *)
Definition refresh_503_world : world :=
  valid_world [answers 401 (Document (errors_of "expired_token"));
               answers 503 (Document (errors_of "system"))].

Definition weight_logs : value :=
  VObj [("weight", VArr [VObj [("date", VStr "2023-11-01"); ("weight", VNum 80)];
                          VObj [("date", VStr "2023-11-08"); ("weight", VNum 79)]])].

Definition fat_logs : value := VObj [("fat", VArr [])].

(** Valid tokens, and a resource that serves the three calls of [main]. *)
Definition main_world : world :=
  valid_world [answers 200 (Document profile);
               answers 200 (Document weight_logs);
               answers 200 (Document fat_logs)].

(** Valid tokens; the profile is served, the weight logs are refused. *)
Definition weightless_world : world :=
  valid_world [answers 200 (Document profile);
               answers 500 (Document (errors_of "system"))].

(** A runtime whose dates all read the same, and whose days are all
    86400000 milliseconds long: enough for the runs below. *)
Definition fixed_toISOString (t : Z) : string := "2023-11-14T22:14:20.300Z".

Definition plain_days_earlier (days t : Z) : Z := t - days * 86400000.

(** ** Reading runs *)

Lemma after_nil {A} (r : run A) : after [] r = r.
Proof. destruct r; reflexivity. Qed.

Lemma bind_return {A B} (m : M A) (k : A -> M B) w a w1 ev1 :
  m w = Run (Return a) w1 ev1 -> bind m k w = after ev1 (k a w1).
Proof. intros H. unfold bind. rewrite H. reflexivity. Qed.

Lemma bind_throw {A B} (m : M A) (k : A -> M B) w e w1 ev1 :
  m w = Run (Throw e) w1 ev1 -> bind m k w = Run (Throw e) w1 ev1.
Proof. intros H. unfold bind. rewrite H. reflexivity. Qed.

Lemma try_return {A} (m : M A) h w a w1 ev1 :
  m w = Run (Return a) w1 ev1 -> try_catch m h w = Run (Return a) w1 ev1.
Proof. intros H. unfold try_catch. rewrite H. reflexivity. Qed.

Lemma try_throw {A} (m : M A) h w e w1 ev1 :
  m w = Run (Throw e) w1 ev1 -> try_catch m h w = after ev1 (h e w1).
Proof. intros H. unfold try_catch. rewrite H. reflexivity. Qed.

Lemma try_rethrow {A} (m : M A) w : try_catch m (fun e => throw e) w = m w.
Proof.
  unfold try_catch. destruct (m w) as [[a | e] w1 ev1]; simpl;
    rewrite ?app_nil_r; reflexivity.
Qed.

Lemma get_run v k w : nullish v = false -> get v k w = Run (Return (field v k)) w [].
Proof. intros N. unfold get. rewrite N. reflexivity. Qed.

Lemma get_nullish v k w :
  nullish v = true ->
  get v k w = Run (Throw (TypeError "Cannot read properties of undefined or null")) w [].
Proof. intros N. unfold get. rewrite N. reflexivity. Qed.

Lemma events_after {A} ev (r : run A) : events_of (after ev r) = ev ++ events_of r.
Proof. destruct r; reflexivity. Qed.

Lemma completion_after {A} ev (r : run A) : completion_of (after ev r) = completion_of r.
Proof. destruct r; reflexivity. Qed.

Lemma world_after {A} ev (r : run A) : world_of (after ev r) = world_of r.
Proof. destruct r; reflexivity. Qed.

Lemma after_after {A} ev1 ev2 (r : run A) : after ev1 (after ev2 r) = after (ev1 ++ ev2) r.
Proof. destruct r; simpl. rewrite app_assoc. reflexivity. Qed.

Lemma run_inv {A} (c c' : completion A) w w' ev ev' :
  Run c w ev = Run c' w' ev' -> c = c' /\ w = w' /\ ev = ev'.
Proof. intros E. injection E as -> -> ->. auto. Qed.

(** ** The Token Store *)

Lemma loadTokens_run w : loadTokens w = Run (Return (stored w)) w [].
Proof.
  destruct w as [[ | [v | raw] | ] ro t net]; reflexivity.
Qed.

(** C7. In every storage state [loadTokens] returns and does not throw:
    the value of the document when the file is there, can be read and
    parses; null when the file is missing, when it cannot be read and
    when its content is not JSON.  It changes nothing and emits nothing. *)
Theorem loadTokens_never_raises (w : world) :
  loadTokens w =
  Run (Return match tokens_json w with
              | Regular (Document record) => record
              | Regular (Malformed _) => VNull
              | Missing => VNull
              | Directory => VNull
              end) w [].
Proof.
  rewrite loadTokens_run. unfold stored.
  destruct (tokens_json w) as [ | [v | raw] | ]; reflexivity.
Qed.

(** C10. In every storage state [clearTokens] returns and does not throw:
    with no entry it leaves the world as it is; an entry whose removal
    fails (a read-only file system, a directory in the file's place) is
    left in place and the error goes no further; otherwise the file is
    gone. *)
Theorem clearTokens_never_raises (w : world) :
  clearTokens w =
  Run (Return tt)
      match tokens_json w with
      | Missing => w
      | Directory => w
      | Regular _ => if read_only w then w else with_entry Missing w
      end [].
Proof.
  destruct w as [[ | c | ] [ | ] t net]; reflexivity.
Qed.

(** A JSON value is written as it is. *)
Lemma serialize_json : forall v, is_json v = true -> serialize v = v.
Proof.
  fix IH 1.
  intros [ | | b | [z | ] | s | items | props]; simpl; intros H;
    try reflexivity; try discriminate.
  - f_equal. induction items as [ | x xs IHxs]; simpl in *; [reflexivity | ].
    apply andb_true_iff in H as [Hx Hxs].
    rewrite (IH x Hx), (IHxs Hxs). reflexivity.
  - f_equal. induction props as [ | [k x] ps IHps]; simpl in *; [reflexivity | ].
    apply andb_true_iff in H as [Hx Hps].
    rewrite (IHps Hps). pose proof (IH x Hx) as E.
    destruct x; try discriminate; rewrite E; reflexivity.
Qed.



Lemma writeFileSync_returns data w w' ev ev0 :
  after ev0 (writeFileSync (Some data) w) = Run (Return tt) w' ev ->
  w' = with_entry (Regular data) w /\ ev = ev0 ++ [].
Proof.
  unfold writeFileSync.
  destruct (tokens_json w), (read_only w); simpl; intros E; try discriminate;
    injection E as <- <-; auto.
Qed.

Lemma saveTokens_run tokens w :
  nullish tokens = false ->
  saveTokens tokens w =
  after [Saving tokens]
    (writeFileSync (JSON_stringify (normalized tokens (now w))) w).
Proof.
  intros N. unfold saveTokens.
  unfold bind at 1. unfold emit at 1. f_equal.
  rewrite try_rethrow.
  do 6 rewrite (bind_return _ _ _ _ _ _ (get_run _ _ _ N)), after_nil.
  unfold bind, Date_now. apply after_nil.
Qed.

Lemma saveTokens_nullish tokens w :
  nullish tokens = true ->
  saveTokens tokens w =
  Run (Throw (TypeError "Cannot read properties of undefined or null")) w
      [Saving tokens].
Proof.
  intros N. unfold saveTokens, bind, try_catch, get, emit. rewrite N. reflexivity.
Qed.

Lemma writeFileSync_silent data w : events_of (writeFileSync data w) = [].
Proof.
  unfold writeFileSync.
  destruct data; [ | reflexivity].
  destruct (tokens_json w), (read_only w); reflexivity.
Qed.

(** [saveTokens] emits its mark and nothing else. *)
Lemma saveTokens_events tokens w : events_of (saveTokens tokens w) = [Saving tokens].
Proof.
  destruct (nullish tokens) eqn:N.
  - rewrite (saveTokens_nullish _ _ N). reflexivity.
  - rewrite (saveTokens_run _ _ N), events_after, writeFileSync_silent. reflexivity.
Qed.

Lemma field_written k x rest :
  field (VObj (written serialize ((k, x) :: rest))) k =
  match x with VUndefined => field (VObj (written serialize rest)) k | _ => serialize x end.
Proof.
  destruct x; simpl; rewrite ?String.eqb_refl; reflexivity.
Qed.

Lemma field_written_other k k' x rest :
  String.eqb k k' = false ->
  field (VObj (written serialize ((k', x) :: rest))) k =
  field (VObj (written serialize rest)) k.
Proof.
  intros E. destruct x; simpl; rewrite ?E; reflexivity.
Qed.

Lemma field_written_here k x rest :
  (x = VUndefined -> field (VObj (written serialize rest)) k = VUndefined) ->
  x = VUndefined \/ is_json x = true ->
  field (VObj (written serialize ((k, x) :: rest))) k = x.
Proof.
  intros R [U | J]; rewrite field_written.
  - subst x. auto.
  - rewrite (serialize_json x J). destruct x; try reflexivity; discriminate.
Qed.

Ltac pass_other_fields := repeat rewrite field_written_other by reflexivity.


Lemma saved_at_normalized tokens t :
  field (serialize (normalized tokens t)) "saved_at" = VNum (Int t).
Proof.
  unfold normalized.
  change (serialize (VObj ?l)) with (VObj (written serialize l)).
  pass_other_fields. reflexivity.
Qed.


(** ** The expiry predicate *)

Section ExpiryFacts.

Variable StringToNumber : string -> number.

Lemma isTokenExpired_falsy w :
  truthy (stored w) = false
  \/ truthy (field (stored w) "saved_at") = false
  \/ truthy (field (stored w) "expires_in") = false ->
  isTokenExpired StringToNumber w = Run (Return true) w [].
Proof.
  intros H. unfold isTokenExpired.
  rewrite (bind_return _ _ _ _ _ _ (loadTokens_run w)).
  destruct (truthy (stored w)); simpl.
  - destruct (truthy (field (stored w) "saved_at")); simpl.
    + destruct (truthy (field (stored w) "expires_in")); simpl; [ | reflexivity].
      destruct H as [H | [H | H]]; discriminate.
    + reflexivity.
  - reflexivity.
Qed.

Lemma isTokenExpired_integers w (saved_at expires_in : Z) :
  truthy (stored w) = true ->
  field (stored w) "saved_at" = VNum (Int saved_at) -> saved_at <> 0 ->
  field (stored w) "expires_in" = VNum (Int expires_in) -> expires_in <> 0 ->
  isTokenExpired StringToNumber w =
  Run (Return (saved_at + expires_in * 1000 - 300000 <=? now w)) w [].
Proof.
  intros T S S0 E E0. unfold isTokenExpired.
  rewrite (bind_return _ _ _ _ _ _ (loadTokens_run w)).
  rewrite T, S, E. simpl.
  apply Z.eqb_neq in S0, E0. rewrite S0, E0. reflexivity.
Qed.

(** [isTokenExpired] always returns, and changes nothing. *)
Lemma isTokenExpired_returns w :
  exists b, isTokenExpired StringToNumber w = Run (Return b) w [].
Proof.
  unfold isTokenExpired.
  rewrite (bind_return _ _ _ _ _ _ (loadTokens_run w)).
  match goal with |- context [if ?c then _ else _] => destruct c end; simpl; eauto.
Qed.

(** C1, as the code has it.  In every stored state and at every time,
    [isTokenExpired] returns true when the loaded value is falsy (no
    record), or [saved_at] is falsy (absent, but also 0, null, false or
    the empty string), or [expires_in] is falsy.  When the record is there
    and [saved_at] and [expires_in] are numbers other than 0 (integers on
    which the arithmetic of doubles is exact), it returns true exactly
    when [now >= saved_at + expires_in*1000 - 300000], and false in every
    other case. *)
Theorem isTokenExpired_iff (w : world) :
  (truthy (stored w) = false \/
   truthy (field (stored w) "saved_at") = false \/
   truthy (field (stored w) "expires_in") = false ->
   isTokenExpired StringToNumber w = Run (Return true) w []) /\
  (forall saved_at expires_in : Z,
     truthy (stored w) = true ->
     field (stored w) "saved_at" = VNum (Int saved_at) -> saved_at <> 0 ->
     field (stored w) "expires_in" = VNum (Int expires_in) -> expires_in <> 0 ->
     exact_expiry saved_at expires_in ->
     exists b : bool,
       isTokenExpired StringToNumber w = Run (Return b) w [] /\
       (b = true <-> saved_at + expires_in * 1000 - 300000 <= now w)).
Proof.
  split; [apply isTokenExpired_falsy | ].
  intros s e T Hs S0 He E0 _.
  exists (s + e * 1000 - 300000 <=? now w). split.
  - apply isTokenExpired_integers; assumption.
  - apply Z.leb_le.
Qed.

End ExpiryFacts.

(** ** The API Client *)

Lemma fetch_reply url i w x rest r :
  network w = x :: rest -> reply x = Some r ->
  fetch url i w = Run (Return r) (awaited w x rest) [Fetch url i].
Proof. intros N R. unfold fetch. rewrite N, R. reflexivity. Qed.

Lemma fetch_unreached url i w x rest :
  network w = x :: rest -> reply x = None ->
  fetch url i w = Run (Throw (TypeError "fetch failed")) (awaited w x rest) [Fetch url i].
Proof. intros N R. unfold fetch. rewrite N, R. reflexivity. Qed.

Lemma fetch_down url i w :
  network w = [] ->
  fetch url i w = Run (Throw (TypeError "fetch failed")) w [Fetch url i].
Proof. intros N. unfold fetch. rewrite N. reflexivity. Qed.

Lemma count_app p ev1 ev2 : count p (ev1 ++ ev2) = (count p ev1 + count p ev2)%nat.
Proof. unfold count. rewrite filter_app, length_app. reflexivity. Qed.

Section ClientFacts.

Variable StringToNumber : string -> number.
Variables CLIENT_ID CLIENT_SECRET : value.

Abbreviation refresh := (refreshAccessToken CLIENT_ID CLIENT_SECRET).
Abbreviation resolve := (getValidAccessToken StringToNumber CLIENT_ID CLIENT_SECRET).
Abbreviation request := (apiRequest StringToNumber CLIENT_ID CLIENT_SECRET).
Abbreviation token_request := (Steps.token_request CLIENT_ID CLIENT_SECRET).
Abbreviation exchanged := (Steps.exchanged CLIENT_ID CLIENT_SECRET).
Abbreviation expired := (Steps.expired StringToNumber).
Abbreviation reactive := (Steps.reactive CLIENT_ID CLIENT_SECRET).
Abbreviation issued := (Steps.issued CLIENT_ID CLIENT_SECRET).

Lemma refresh_unfold w :
  refresh w =
  after [Refreshing]
    (if has_refresh_token w
     then exchanged (stored w) w
     else Run (Throw (FitbitAuthError (Literal
            "No refresh token available. Please re-authorize the application."))) w []).
Proof.
  unfold refreshAccessToken, has_refresh_token.
  unfold bind at 1. unfold emit at 1. f_equal.
  rewrite (bind_return _ _ _ _ _ _ (loadTokens_run w)), after_nil.
  destruct (truthy (stored w)); simpl; [ | reflexivity].
  destruct (truthy (field (stored w) "refresh_token")); reflexivity.
Qed.

Lemma refresh_no_token w :
  has_refresh_token w = false ->
  refresh w =
  Run (Throw (FitbitAuthError (Literal
         "No refresh token available. Please re-authorize the application."))) w
      [Refreshing].
Proof. intros H. rewrite refresh_unfold, H. reflexivity. Qed.

Lemma refresh_down w :
  has_refresh_token w = true -> network w = [] ->
  refresh w = Run (Throw (TypeError "fetch failed")) w [Refreshing; token_request w].
Proof.
  intros H N. rewrite refresh_unfold, H. unfold Steps.exchanged.
  rewrite (bind_throw _ _ _ _ _ _ (fetch_down _ _ _ N)). reflexivity.
Qed.

Lemma refresh_unreached w x rest :
  has_refresh_token w = true -> network w = x :: rest -> reply x = None ->
  refresh w =
  Run (Throw (TypeError "fetch failed")) (awaited w x rest) [Refreshing; token_request w].
Proof.
  intros H N R. rewrite refresh_unfold, H. unfold Steps.exchanged.
  rewrite (bind_throw _ _ _ _ _ _ (fetch_unreached _ _ _ _ _ N R)). reflexivity.
Qed.

Lemma refresh_malformed w x rest r raw :
  has_refresh_token w = true -> network w = x :: rest -> reply x = Some r ->
  body r = Malformed raw ->
  refresh w = Run (Throw SyntaxError) (awaited w x rest) [Refreshing; token_request w].
Proof.
  intros H N R B. rewrite refresh_unfold, H. unfold Steps.exchanged.
  rewrite (bind_return _ _ _ _ _ _ (fetch_reply _ _ _ _ _ _ N R)).
  unfold json. rewrite B. destruct (ok r); reflexivity.
Qed.

Lemma refresh_rejected w x rest r error :
  has_refresh_token w = true -> network w = x :: rest -> reply x = Some r ->
  ok r = false -> body r = Document error ->
  refresh w =
  Run (Throw (if (status r =? 401) || (status r =? 400)
              then FitbitAuthError
                     (Around "Token refresh failed: " error ". Please re-authorize.")
              else FitbitApiError
                     (Around "Token refresh failed: " error EmptyString) (status r) error))
      (awaited w x rest) [Refreshing; token_request w].
Proof.
  intros H N R O B. rewrite refresh_unfold, H. unfold Steps.exchanged.
  rewrite (bind_return _ _ _ _ _ _ (fetch_reply _ _ _ _ _ _ N R)).
  unfold json. rewrite O, B. simpl.
  destruct ((status r =? 401) || (status r =? 400)); reflexivity.
Qed.

Lemma refresh_granted w x rest r newTokens :
  has_refresh_token w = true -> network w = x :: rest -> reply x = Some r ->
  ok r = true -> body r = Document newTokens ->
  refresh w =
  after [Refreshing; token_request w]
    (match saveTokens newTokens (awaited w x rest) with
     | Run (Return _) w' ev => Run (Return newTokens) w' ev
     | Run (Throw e) w' ev => Run (Throw e) w' ev
     end).
Proof.
  intros H N R O B. rewrite refresh_unfold, H. unfold Steps.exchanged.
  rewrite (bind_return _ _ _ _ _ _ (fetch_reply _ _ _ _ _ _ N R)).
  unfold json. rewrite O, B. cbn [negb JSON_parse].
  rewrite (bind_return _ _ _ _ _ _ (eq_refl : ret newTokens _ = _)), after_nil.
  rewrite after_after. f_equal.
  unfold bind. destruct (saveTokens newTokens (awaited w x rest)) as [[[] | e] w' ev];
    simpl; rewrite ?app_nil_r; reflexivity.
Qed.

(** What a refresh that returns has gone through: a refresh token on
    record, a 2xx response with a JSON body that is not null, and a write
    that went well. *)
Lemma refresh_returns w newTokens w' ev :
  refresh w = Run (Return newTokens) w' ev ->
  exists x rest r,
    has_refresh_token w = true /\ network w = x :: rest /\ reply x = Some r /\
    ok r = true /\ body r = Document newTokens /\ nullish newTokens = false /\
    ev = [Refreshing; token_request w; Saving newTokens] /\
    w' = with_entry
           (Regular (Document (serialize (normalized newTokens (now w + elapsed x)))))
           (awaited w x rest).
Proof.
  intros E.
  destruct (has_refresh_token w) eqn:H;
    [ | rewrite (refresh_no_token _ H) in E; discriminate].
  destruct (network w) as [ | x rest] eqn:N;
    [rewrite (refresh_down _ H N) in E; discriminate | ].
  destruct (reply x) as [r | ] eqn:R;
    [ | rewrite (refresh_unreached _ _ _ H N R) in E; discriminate].
  destruct (body r) as [v | raw] eqn:B;
    [ | rewrite (refresh_malformed _ _ _ _ _ H N R B) in E; discriminate].
  destruct (ok r) eqn:O;
    [ | rewrite (refresh_rejected _ _ _ _ _ H N R O B) in E; discriminate].
  rewrite (refresh_granted _ _ _ _ _ H N R O B) in E.
  destruct (nullish v) eqn:Nu;
    [rewrite (saveTokens_nullish _ _ Nu) in E; discriminate | ].
  rewrite (saveTokens_run _ _ Nu) in E.
  change (JSON_stringify (normalized v (now (awaited w x rest))))
    with (Some (Document (serialize (normalized v (now w + elapsed x))))) in E.
  destruct (after _ (writeFileSync _ _)) as [[[] | e] w2 ev2] eqn:W;
    [ | discriminate].
  destruct (writeFileSync_returns _ _ _ _ _ W) as [W2 Ev2].
  cbn [after] in E. apply run_inv in E as (C & <- & <-).
  injection C as <-.
  exists x, rest, r. rewrite W2, Ev2. repeat split; auto.
Qed.

Lemma refresh_traced w : refresh_trace (events_of (refresh w)).
Proof.
  destruct (has_refresh_token w) eqn:H;
    [ | rewrite (refresh_no_token _ H); constructor].
  destruct (network w) as [ | x rest] eqn:N;
    [rewrite (refresh_down _ H N); constructor | ].
  destruct (reply x) as [r | ] eqn:R;
    [ | rewrite (refresh_unreached _ _ _ H N R); constructor].
  destruct (body r) as [v | raw] eqn:B;
    [ | rewrite (refresh_malformed _ _ _ _ _ H N R B); constructor].
  destruct (ok r) eqn:O;
    [ | rewrite (refresh_rejected _ _ _ _ _ H N R O B); constructor].
  rewrite (refresh_granted _ _ _ _ _ H N R O B), events_after.
  pose proof (saveTokens_events v (awaited w x rest)) as Ev.
  destruct (saveTokens v (awaited w x rest)) as [[[] | e] w2 ev2];
    simpl in Ev; subst ev2; constructor.
Qed.

Lemma isTokenExpired_run w :
  isTokenExpired StringToNumber w = Run (Return (expired w)) w [].
Proof.
  unfold Steps.expired. destruct (isTokenExpired_returns StringToNumber w) as [b ->].
  reflexivity.
Qed.

Lemma resolve_absent w :
  truthy (stored w) = false -> resolve w = Run (Throw no_tokens_found) w [].
Proof.
  intros T. unfold getValidAccessToken.
  rewrite (bind_return _ _ _ _ _ _ (loadTokens_run w)), after_nil, T. reflexivity.
Qed.

Lemma truthy_not_nullish v : truthy v = true -> nullish v = false.
Proof. destruct v; simpl; auto; discriminate. Qed.

Lemma resolve_valid w :
  truthy (stored w) = true -> expired w = false ->
  resolve w = Run (Return (field (stored w) "access_token")) w [].
Proof.
  intros T X. unfold getValidAccessToken.
  rewrite (bind_return _ _ _ _ _ _ (loadTokens_run w)), after_nil, T.
  cbn [negb].
  rewrite (bind_return _ _ _ _ _ _ (isTokenExpired_run w)), after_nil, X.
  rewrite (bind_return _ _ _ _ _ _ (eq_refl : ret (stored w) w = _)), after_nil.
  apply get_run, truthy_not_nullish, T.
Qed.

Lemma resolve_expired w :
  truthy (stored w) = true -> expired w = true ->
  resolve w =
  match refresh w with
  | Run (Return newTokens) w' ev => Run (Return (field newTokens "access_token")) w' ev
  | Run (Throw e) w' ev => Run (Throw e) w' ev
  end.
Proof.
  intros T X. unfold getValidAccessToken.
  rewrite (bind_return _ _ _ _ _ _ (loadTokens_run w)), after_nil, T.
  cbn [negb].
  rewrite (bind_return _ _ _ _ _ _ (isTokenExpired_run w)), after_nil, X.
  destruct (refresh w) as [[nt | e] w' ev] eqn:E.
  - rewrite (bind_return _ _ _ _ _ _ E).
    destruct (refresh_returns _ _ _ _ E) as (x & rest & r & _ & _ & _ & _ & _ & Nu & _).
    rewrite (get_run _ _ _ Nu). simpl. rewrite app_nil_r. reflexivity.
  - rewrite (bind_throw _ _ _ _ _ _ E). reflexivity.
Qed.

Lemma request_unfold endpoint options w :
  request endpoint options w =
  match resolve w with
  | Run (Return accessToken) w1 ev1 =>
      after ev1 (issued (url_of endpoint) (or_default options) accessToken w1)
  | Run (Throw e) w1 ev1 => Run (Throw e) w1 ev1
  end.
Proof. reflexivity. Qed.

Lemma issued_nullish url options accessToken w :
  nullish options = true ->
  issued url options accessToken w =
  Run (Throw (TypeError "Cannot read properties of undefined or null")) w [].
Proof.
  intros N. unfold Steps.issued.
  rewrite (bind_throw _ _ _ _ _ _ (get_nullish _ _ _ N)). reflexivity.
Qed.

Lemma issued_down url options accessToken w :
  nullish options = false -> network w = [] ->
  issued url options accessToken w =
  Run (Throw (TypeError "fetch failed")) w [Fetch url (WithBearer options accessToken)].
Proof.
  intros N Net. unfold Steps.issued.
  rewrite (bind_return _ _ _ _ _ _ (get_run _ _ _ N)), after_nil.
  rewrite (bind_throw _ _ _ _ _ _ (fetch_down _ _ _ Net)). reflexivity.
Qed.

Lemma issued_unreached url options accessToken w x rest :
  nullish options = false -> network w = x :: rest -> reply x = None ->
  issued url options accessToken w =
  Run (Throw (TypeError "fetch failed")) (awaited w x rest)
      [Fetch url (WithBearer options accessToken)].
Proof.
  intros N Net R. unfold Steps.issued.
  rewrite (bind_return _ _ _ _ _ _ (get_run _ _ _ N)), after_nil.
  rewrite (bind_throw _ _ _ _ _ _ (fetch_unreached _ _ _ _ _ Net R)). reflexivity.
Qed.

Lemma issued_401 url options accessToken w x rest r :
  nullish options = false -> network w = x :: rest -> reply x = Some r ->
  status r = 401 ->
  issued url options accessToken w =
  after [Fetch url (WithBearer options accessToken)]
    (reactive url options (awaited w x rest)).
Proof.
  intros N Net R S. unfold Steps.issued.
  rewrite (bind_return _ _ _ _ _ _ (get_run _ _ _ N)), after_nil.
  rewrite (bind_return _ _ _ _ _ _ (fetch_reply _ _ _ _ _ _ Net R)).
  rewrite S. reflexivity.
Qed.

Lemma issued_other url options accessToken w x rest r :
  nullish options = false -> network w = x :: rest -> reply x = Some r ->
  status r <> 401 ->
  issued url options accessToken w =
  Run (settled r) (awaited w x rest) [Fetch url (WithBearer options accessToken)].
Proof.
  intros N Net R S. unfold Steps.issued.
  rewrite (bind_return _ _ _ _ _ _ (get_run _ _ _ N)), after_nil.
  rewrite (bind_return _ _ _ _ _ _ (fetch_reply _ _ _ _ _ _ Net R)).
  apply Z.eqb_neq in S. rewrite S. unfold settled, json.
  destruct (ok r), (body r); reflexivity.
Qed.

Lemma reactive_refused url options w e w' ev :
  refresh w = Run (Throw e) w' ev ->
  reactive url options w =
  Run (Throw (if is_auth_error e then e else authentication_failed)) w' ev.
Proof.
  intros E. unfold Steps.reactive, bind at 1, try_catch.
  rewrite (bind_throw _ _ _ _ _ _ E).
  destruct (is_auth_error e); simpl; rewrite app_nil_r; reflexivity.
Qed.

Lemma reactive_retry_down url options w newTokens w' ev :
  nullish options = false ->
  refresh w = Run (Return newTokens) w' ev -> network w' = [] ->
  reactive url options w =
  Run (Throw authentication_failed) w'
      (ev ++ [Fetch url (WithBearer options (field newTokens "access_token"))]).
Proof.
  intros N E Net. unfold Steps.reactive, bind at 1, try_catch.
  rewrite (bind_return _ _ _ _ _ _ E).
  destruct (refresh_returns _ _ _ _ E) as (_ & _ & _ & _ & _ & _ & _ & _ & Nu & _).
  rewrite (bind_return _ _ _ _ _ _ (get_run _ _ _ Nu)), after_nil.
  rewrite (bind_return _ _ _ _ _ _ (get_run _ _ _ N)), after_nil.
  rewrite (bind_throw _ _ _ _ _ _ (fetch_down _ _ _ Net)).
  simpl. rewrite app_nil_r. reflexivity.
Qed.

Lemma reactive_retry url options w newTokens w' ev x rest :
  nullish options = false ->
  refresh w = Run (Return newTokens) w' ev -> network w' = x :: rest ->
  reactive url options w =
  Run (retried (reply x)) (awaited w' x rest)
      (ev ++ [Fetch url (WithBearer options (field newTokens "access_token"))]).
Proof.
  intros N E Net. unfold Steps.reactive, bind at 1, try_catch.
  rewrite (bind_return _ _ _ _ _ _ E).
  destruct (refresh_returns _ _ _ _ E) as (_ & _ & _ & _ & _ & _ & _ & _ & Nu & _).
  rewrite (bind_return _ _ _ _ _ _ (get_run _ _ _ Nu)), after_nil.
  rewrite (bind_return _ _ _ _ _ _ (get_run _ _ _ N)), after_nil.
  destruct (reply x) as [r | ] eqn:R.
  - rewrite (bind_return _ _ _ _ _ _ (fetch_reply _ _ _ _ _ _ Net R)).
    unfold retried, json. destruct (ok r), (body r);
      simpl; rewrite ?app_nil_r; reflexivity.
  - rewrite (bind_throw _ _ _ _ _ _ (fetch_unreached _ _ _ _ _ Net R)).
    simpl. rewrite app_nil_r. reflexivity.
Qed.

(** *** The refresh operation *)

(** C4, as the code has it.  A refresh with no refresh token on record
    throws an auth error and sends nothing.  When the refresh token on
    record is a primitive value (a string, as the token endpoint issues
    it) and the token endpoint answers non-2xx with a body that parses as
    JSON, status 400 or 401 makes an auth error, and any other status an
    API error that carries the status and the parsed body.  In every case
    the token endpoint is asked at most once. *)
Theorem refreshAccessToken_outcomes (w : world) :
  (has_refresh_token w = false ->
   refresh w = Run (Throw no_refresh_token) w [Refreshing]) /\
  (forall x rest r errors,
     has_refresh_token w = true ->
     primitive (field (stored w) "refresh_token") = true ->
     network w = x :: rest -> reply x = Some r ->
     ok r = false -> body r = Document errors ->
     (status r = 400 \/ status r = 401 ->
      completion_of (refresh w) =
      Throw (FitbitAuthError
               (Around "Token refresh failed: " errors ". Please re-authorize."))) /\
     (status r <> 400 -> status r <> 401 ->
      completion_of (refresh w) =
      Throw (FitbitApiError
               (Around "Token refresh failed: " errors EmptyString) (status r) errors))) /\
  (count is_token_request (events_of (refresh w)) <= 1)%nat.
Proof.
  split; [apply refresh_no_token | split].
  - intros x rest r errors H _ N R O B.
    rewrite (refresh_rejected _ _ _ _ _ H N R O B). cbn [completion_of]. split.
    + intros [S | S]; rewrite S; reflexivity.
    + intros S400 S401. apply Z.eqb_neq in S400, S401. rewrite S400, S401. reflexivity.
  - destruct (refresh_traced w); cbn; lia.
Qed.

(** C9.  A refresh that fails for want of a refresh token, or because the
    token endpoint answered non-2xx, throws, leaves the entry at the
    token file as it was and does not enter [saveTokens]; and whenever a
    refresh enters [saveTokens], a 2xx response of the token endpoint
    came before, whose parsed body is what is saved. *)
Theorem failed_refresh_keeps_record (w : world) :
  (has_refresh_token w = false
   \/ (exists x rest r, network w = x :: rest /\ reply x = Some r /\ ok r = false) ->
   (exists e, completion_of (refresh w) = Throw e) /\
   tokens_json (world_of (refresh w)) = tokens_json w /\
   count is_save (events_of (refresh w)) = 0%nat) /\
  (forall tokens, In (Saving tokens) (events_of (refresh w)) ->
   exists x rest r,
     has_refresh_token w = true /\
     network w = x :: rest /\ reply x = Some r /\
     ok r = true /\ body r = Document tokens).
Proof using CLIENT_ID CLIENT_SECRET.
  clear StringToNumber. split.
  - intros [H | (x & rest & r & N & R & O)].
    + rewrite (refresh_no_token _ H). cbn. eauto.
    + destruct (has_refresh_token w) eqn:H;
        [ | rewrite (refresh_no_token _ H); cbn; eauto].
      destruct (body r) as [errors | raw] eqn:B.
      * rewrite (refresh_rejected _ _ _ _ _ H N R O B). cbn. eauto.
      * rewrite (refresh_malformed _ _ _ _ _ H N R B). cbn. eauto.
  - intros tokens I.
    destruct (has_refresh_token w) eqn:H;
      [ | rewrite (refresh_no_token _ H) in I; cbn in I; intuition discriminate].
    destruct (network w) as [ | x rest] eqn:N;
      [rewrite (refresh_down _ H N) in I; cbn in I; intuition discriminate | ].
    destruct (reply x) as [r | ] eqn:R;
      [ | rewrite (refresh_unreached _ _ _ H N R) in I; cbn in I; intuition discriminate].
    destruct (body r) as [v | raw] eqn:B;
      [ | rewrite (refresh_malformed _ _ _ _ _ H N R B) in I; cbn in I;
          intuition discriminate].
    destruct (ok r) eqn:O;
      [ | rewrite (refresh_rejected _ _ _ _ _ H N R O B) in I; cbn in I;
          intuition discriminate].
    rewrite (refresh_granted _ _ _ _ _ H N R O B), events_after in I.
    pose proof (saveTokens_events v (awaited w x rest)) as Ev.
    destruct (saveTokens v (awaited w x rest)) as [[[] | e] w2 ev2];
      cbn in Ev; subst ev2; cbn in I;
      destruct I as [I | [I | [I | []]]]; try discriminate;
      injection I as <-; exists x, rest, r; auto.
Qed.

(** *** One call of [apiRequest] *)

Lemma resolve_traced w :
  events_of (resolve w) = [] \/ refresh_trace (events_of (resolve w)).
Proof.
  destruct (truthy (stored w)) eqn:T; [ | rewrite (resolve_absent _ T); auto].
  destruct (expired w) eqn:X; [ | rewrite (resolve_valid _ T X); auto].
  rewrite (resolve_expired _ T X). right.
  pose proof (refresh_traced w) as RT.
  destruct (refresh w) as [[nt | e] w' ev]; exact RT.
Qed.

Lemma reactive_traced url options w :
  nullish options = false ->
  refresh_trace (events_of (reactive url options w))
  \/ exists rt url' options' token',
       refresh_trace rt /\
       events_of (reactive url options w) =
       rt ++ [Fetch url' (WithBearer options' token')].
Proof.
  intros N. pose proof (refresh_traced w) as RT.
  destruct (refresh w) as [[nt | e] w' ev] eqn:E.
  - right. exists ev, url, options, (field nt "access_token"). split; [exact RT | ].
    destruct (network w') as [ | x rest] eqn:Net.
    + rewrite (reactive_retry_down _ _ _ _ _ _ N E Net). reflexivity.
    + rewrite (reactive_retry _ _ _ _ _ _ _ _ N E Net). reflexivity.
  - left. rewrite (reactive_refused _ _ _ _ _ _ E). exact RT.
Qed.

Lemma issued_traced url options accessToken w :
  answer_trace (events_of (issued url options accessToken w)).
Proof.
  destruct (nullish options) eqn:N;
    [rewrite (issued_nullish _ _ _ _ N); constructor | ].
  destruct (network w) as [ | x rest] eqn:Net;
    [rewrite (issued_down _ _ _ _ N Net); constructor | ].
  destruct (reply x) as [r | ] eqn:R;
    [ | rewrite (issued_unreached _ _ _ _ _ _ N Net R); constructor].
  destruct (Z.eq_dec (status r) 401) as [S | S];
    [ | rewrite (issued_other _ _ _ _ _ _ _ N Net R S); constructor].
  rewrite (issued_401 _ _ _ _ _ _ _ N Net R S), events_after.
  destruct (reactive_traced url options (awaited w x rest) N)
    as [RT | (rt & u & o & t & RT & ->)]; simpl; constructor; assumption.
Qed.

(** The events of one call: those of the resolve-token step (nothing, or
    one refresh), then those of the request. *)
Lemma request_traced endpoint options w :
  exists pre post,
    events_of (request endpoint options w) = pre ++ post /\
    (pre = [] \/ refresh_trace pre) /\ answer_trace post.
Proof.
  rewrite request_unfold. pose proof (resolve_traced w) as RT.
  destruct (resolve w) as [[tok | e] w1 ev1]; cbn [events_of] in RT.
  - exists ev1, (events_of (issued (url_of endpoint) (or_default options) tok w1)).
    rewrite events_after. split; [reflexivity | split; [exact RT | apply issued_traced]].
  - exists ev1, []. rewrite app_nil_r. split; [reflexivity | split; [exact RT | constructor]].
Qed.

(** C3, as the code has it.  One call of [apiRequest], whatever the
    stored tokens and the network: at most one refresh is attempted
    before the first resource request (the pre-emptive one) and at most
    one after it (the one that a 401 triggers), hence at most two in all;
    the resource request is sent at most twice (one retry at most); the
    token endpoint is asked at most twice.  There is no loop: a call is
    over after at most four HTTP requests. *)
Theorem apiRequest_bounded (endpoint : string) (options : value) (w : world) :
  let ev := events_of (request endpoint options w) in
  (count is_refresh (before is_resource_request ev) <= 1)%nat /\
  (count is_refresh (behind is_resource_request ev) <= 1)%nat /\
  (count is_refresh ev <= 2)%nat /\
  (count is_resource_request ev <= 2)%nat /\
  (count is_token_request ev <= 2)%nat /\
  (count is_fetch ev <= 4)%nat.
Proof.
  intros ev. subst ev.
  destruct (request_traced endpoint options w) as (pre & post & -> & [-> | RT] & AT).
  - destruct AT as [ | | ? ? ? ? RT' | ? ? ? ? ? ? ? RT'];
      try destruct RT'; cbn; lia.
  - destruct RT; destruct AT as [ | | ? ? ? ? RT' | ? ? ? ? ? ? ? RT'];
      try destruct RT'; cbn; lia.
Qed.

Lemma issued_first url options accessToken w :
  nullish options = false ->
  exists more,
    events_of (issued url options accessToken w) =
    Fetch url (WithBearer options accessToken) :: more.
Proof.
  intros N.
  destruct (network w) as [ | x rest] eqn:Net;
    [rewrite (issued_down _ _ _ _ N Net); eexists; reflexivity | ].
  destruct (reply x) as [r | ] eqn:R;
    [ | rewrite (issued_unreached _ _ _ _ _ _ N Net R); eexists; reflexivity].
  destruct (Z.eq_dec (status r) 401) as [S | S];
    [ | rewrite (issued_other _ _ _ _ _ _ _ N Net R S); eexists; reflexivity].
  rewrite (issued_401 _ _ _ _ _ _ _ N Net R S), events_after.
  eexists; reflexivity.
Qed.

Lemma expired_true w :
  isTokenExpired StringToNumber w = Run (Return true) w [] -> expired w = true.
Proof. intros E. unfold Steps.expired. rewrite E. reflexivity. Qed.

Lemma expired_false w :
  isTokenExpired StringToNumber w = Run (Return false) w [] -> expired w = false.
Proof. intros E. unfold Steps.expired. rewrite E. reflexivity. Qed.

(** C5.  The resolve-token step of a call of [apiRequest] (the options
    being an object, as in every call the program makes).
    - When [loadTokens] returns null, or any other falsy value that the
      token file may hold (0, false, the empty string), the call throws
      the auth error and emits nothing: no HTTP request is sent.
    - When a record is there and [isTokenExpired] answers true, the call
      begins with one refresh: if that refresh throws, the call throws
      the same error in the same world and sends no resource request; if
      it returns tokens whose [access_token] is a primitive value, the
      next event of the call is the resource request, which bears that
      [access_token].  In both cases the events up to there hold exactly
      one refresh.
    - When a record is there whose [access_token] is a primitive value
      and [isTokenExpired] answers false, the first event of the call is
      the resource request, bearing the stored [access_token]: no refresh
      comes before it. *)
Theorem resolve_token_step (endpoint : string) (options : value) (w : world) :
  nullish (or_default options) = false ->
  (truthy (stored w) = false ->
   request endpoint options w = Run (Throw no_tokens_found) w []) /\
  (truthy (stored w) = true ->
   isTokenExpired StringToNumber w = Run (Return true) w [] ->
   (forall e w1 ev1,
      refresh w = Run (Throw e) w1 ev1 ->
      request endpoint options w = Run (Throw e) w1 ev1 /\
      count is_refresh ev1 = 1%nat /\ count is_resource_request ev1 = 0%nat) /\
   (forall newTokens w1 ev1,
      refresh w = Run (Return newTokens) w1 ev1 ->
      primitive (field newTokens "access_token") = true ->
      count is_refresh ev1 = 1%nat /\ count is_resource_request ev1 = 0%nat /\
      exists more,
        events_of (request endpoint options w) =
        ev1 ++ Fetch (url_of endpoint)
                 (WithBearer (or_default options) (field newTokens "access_token"))
               :: more)) /\
  (truthy (stored w) = true ->
   isTokenExpired StringToNumber w = Run (Return false) w [] ->
   primitive (field (stored w) "access_token") = true ->
   exists more,
     events_of (request endpoint options w) =
     Fetch (url_of endpoint)
       (WithBearer (or_default options) (field (stored w) "access_token"))
     :: more).
Proof.
  intros N. split; [ | split].
  - intros A. rewrite request_unfold, (resolve_absent _ A). reflexivity.
  - intros T X. apply expired_true in X. split.
    + intros e w1 ev1 E. pose proof (refresh_traced w) as RT.
      rewrite request_unfold, (resolve_expired _ T X), E.
      rewrite E in RT. cbn [events_of] in RT.
      split; [reflexivity | destruct RT; split; reflexivity].
    + intros nt w1 ev1 E _. pose proof (refresh_traced w) as RT.
      rewrite request_unfold, (resolve_expired _ T X), E, events_after.
      rewrite E in RT. cbn [events_of] in RT.
      split; [destruct RT; reflexivity | split; [destruct RT; reflexivity | ]].
      destruct (issued_first (url_of endpoint) _ (field nt "access_token") w1 N)
        as [more ->].
      exists more. reflexivity.
  - intros T X _. apply expired_false in X.
    rewrite request_unfold, (resolve_valid _ T X), after_nil.
    apply issued_first, N.
Qed.

(** C8, as the code has it.  Once the access token is resolved to a
    primitive value (a string, as the token endpoint issues it), a first
    resource response that is non-2xx, is not a 401 and has a body that
    parses as JSON makes the call throw an API error that carries the
    status and the parsed body of that response; after the events of the
    resolve-token step the call emits that one resource request and
    nothing else: no refresh and no retry follow.  When the stored tokens
    had not expired the step itself emitted nothing, so that the call
    attempted no refresh at all. *)
Theorem non_401_failure (endpoint : string) (options : value) (w w1 : world)
    (accessToken : value) (ev1 : list event)
    (x : exchange) (rest : list exchange) (r : response) (errors : value) :
  resolve w = Run (Return accessToken) w1 ev1 ->
  primitive accessToken = true ->
  nullish (or_default options) = false ->
  network w1 = x :: rest -> reply x = Some r ->
  status r <> 401 -> ok r = false -> body r = Document errors ->
  request endpoint options w =
  Run (Throw (FitbitApiError
                (Around "API request failed: " errors EmptyString) (status r) errors))
      (awaited w1 x rest)
      (ev1 ++ [Fetch (url_of endpoint) (WithBearer (or_default options) accessToken)])
  /\ (isTokenExpired StringToNumber w = Run (Return false) w [] -> ev1 = []).
Proof.
  intros E _ N Net R S O B. split.
  - rewrite request_unfold, E, (issued_other _ _ _ _ _ _ _ N Net R S).
    unfold settled. rewrite B, O. reflexivity.
  - intros X. apply expired_false in X.
    destruct (truthy (stored w)) eqn:T.
    + rewrite (resolve_valid _ T X) in E. apply run_inv in E as (_ & _ & <-).
      reflexivity.
    + rewrite (resolve_absent _ T) in E. discriminate.
Qed.

(** What a call does with a 401 whose refresh succeeds: exactly one
    refresh, one retry with the [access_token] of the new tokens, and the
    answer [retried] to what the retry met. *)
Lemma retry_after_401 (endpoint : string) (options : value) (w w1 w2 : world)
    (accessToken newTokens : value) (ev1 ev2 : list event)
    (x x' : exchange) (rest rest' : list exchange) (r : response) :
  resolve w = Run (Return accessToken) w1 ev1 ->
  nullish (or_default options) = false ->
  network w1 = x :: rest -> reply x = Some r -> status r = 401 ->
  refresh (awaited w1 x rest) = Run (Return newTokens) w2 ev2 ->
  network w2 = x' :: rest' ->
  request endpoint options w =
  Run (retried (reply x')) (awaited w2 x' rest')
      (ev1 ++ Fetch (url_of endpoint) (WithBearer (or_default options) accessToken)
           :: ev2
           ++ [Fetch (url_of endpoint)
                 (WithBearer (or_default options) (field newTokens "access_token"))])
  /\ count is_refresh (ev2) = 1%nat.
Proof.
  intros E N Net R S E2 Net2. split.
  - rewrite request_unfold, E, (issued_401 _ _ _ _ _ _ _ N Net R S).
    rewrite (reactive_retry _ _ _ _ _ _ _ _ N E2 Net2). reflexivity.
  - pose proof (refresh_traced (awaited w1 x rest)) as RT. rewrite E2 in RT.
    cbn [events_of] in RT. destruct RT; reflexivity.
Qed.

(** A retry that is answered non-2xx makes the call throw the auth error
    of the catch clause, whatever the status and the body of the answer:
    the API error that the try block throws does not leave it. *)
Lemma retry_failure_is_auth_error (endpoint : string) (options : value)
    (w w1 w2 : world) (accessToken newTokens : value) (ev1 ev2 : list event)
    (x x' : exchange) (rest rest' : list exchange) (r r' : response) :
  resolve w = Run (Return accessToken) w1 ev1 ->
  nullish (or_default options) = false ->
  network w1 = x :: rest -> reply x = Some r -> status r = 401 ->
  refresh (awaited w1 x rest) = Run (Return newTokens) w2 ev2 ->
  network w2 = x' :: rest' -> reply x' = Some r' -> ok r' = false ->
  completion_of (request endpoint options w) = Throw authentication_failed.
Proof.
  intros E N Net R S E2 Net2 R' O'.
  destruct (retry_after_401 endpoint options _ _ _ _ _ _ _ _ _ _ _ _ E N Net R S E2 Net2)
    as [-> _].
  cbn [completion_of]. rewrite R'. unfold retried. rewrite O'. reflexivity.
Qed.

End ClientFacts.

(* ================================================================== *)
(** * Concrete runs                                                   *)
(* ================================================================== *)

(** ** C6, C1: the Token Store *)


(** C1 fails as it is stated.  The record exists, its [saved_at] (0) and
    its [expires_in] (3600) are there, and [now] (1000) is before
    0 + 3600*1000 - 300000: none of the four conditions of the
    specification holds.  Yet [isTokenExpired] returns true: it takes
    the 0 for a missing field. *)
Lemma isTokenExpired_zero_saved_at :
  isTokenExpired unused_StringToNumber epoch_world = Run (Return true) epoch_world []
  /\ ~ spec_isExpired epoch_world.
Proof.
  split; [vm_compute; reflexivity | ].
  intros [H | [H | [H | (s & e & Hs & He & L)]]];
    try (vm_compute in H; discriminate).
  vm_compute in Hs, He. injection Hs as <-. injection He as <-.
  vm_compute in L. apply L. reflexivity.
Qed.

Lemma isTokenExpired_iff_witness :
  isTokenExpired unused_StringToNumber empty_disk = Run (Return true) empty_disk []
  /\ exact_expiry t0 28800
  /\ exists b : bool,
       isTokenExpired unused_StringToNumber quiet_world = Run (Return b) quiet_world [] /\
       (b = true <-> t0 + 28800 * 1000 - 300000 <= now quiet_world).
Proof.
  assert (X : exact_expiry t0 28800)
    by (unfold exact_expiry, exact_double, t0; lia).
  split; [ | split; [exact X | ]].
  - exact (proj1 (isTokenExpired_iff unused_StringToNumber empty_disk)
             (or_introl eq_refl)).
  - refine (proj2 (isTokenExpired_iff unused_StringToNumber quiet_world)
              t0 28800 eq_refl eq_refl _ eq_refl _ X); discriminate.
Defined.

(** ** C4, C9: the refresh operation *)

Abbreviation refresh_in := (refreshAccessToken ID SECRET).
Abbreviation request_in := (apiRequest unused_StringToNumber ID SECRET).

(** C4 fails as it is stated.  A refresh token is on record and the
    token endpoint answers 401, but with a body that is not JSON: the
    refresh throws the SyntaxError of [response.json()], which is not an
    auth error. *)
Lemma refresh_401_not_json :
  has_refresh_token html_401_world = true /\
  network html_401_world
  = [answers 401 (Malformed "<html><body>Unauthorized</body></html>")] /\
  completion_of (refresh_in html_401_world) = Throw SyntaxError /\
  (forall msg, completion_of (refresh_in html_401_world) <> Throw (FitbitAuthError msg)).
Proof.
  assert (E : completion_of (refresh_in html_401_world) = Throw SyntaxError)
    by (vm_compute; reflexivity).
  repeat split; try reflexivity; try exact E.
  intros msg. rewrite E. discriminate.
Qed.

Lemma refreshAccessToken_outcomes_witness :
  refresh_in tokenless_world = Run (Throw no_refresh_token) tokenless_world [Refreshing]
  /\ completion_of (refresh_in (rejected_world 400))
     = Throw (FitbitAuthError
                (Around "Token refresh failed: " (errors_of "invalid_grant")
                   ". Please re-authorize."))
  /\ completion_of (refresh_in (rejected_world 503))
     = Throw (FitbitApiError
                (Around "Token refresh failed: " (errors_of "invalid_grant") EmptyString)
                503 (errors_of "invalid_grant")).
Proof.
  split; [ | split].
  - exact (proj1 (refreshAccessToken_outcomes ID SECRET tokenless_world) eq_refl).
  - exact (proj1 (proj1 (proj2 (refreshAccessToken_outcomes ID SECRET (rejected_world 400)))
                   _ _ _ _ eq_refl eq_refl eq_refl eq_refl eq_refl eq_refl)
             (or_introl eq_refl)).
  - refine (proj2 (proj1 (proj2 (refreshAccessToken_outcomes ID SECRET (rejected_world 503)))
                   _ _ (Response 503 _) _ eq_refl eq_refl eq_refl eq_refl eq_refl eq_refl)
             _ _); discriminate.
Defined.

Lemma failed_refresh_keeps_record_witness :
  ((exists e, completion_of (refresh_in (rejected_world 400)) = Throw e) /\
   tokens_json (world_of (refresh_in (rejected_world 400)))
   = tokens_json (rejected_world 400) /\
   count is_save (events_of (refresh_in (rejected_world 400))) = 0%nat)
  /\ ((exists e, completion_of (refresh_in tokenless_world) = Throw e) /\
      tokens_json (world_of (refresh_in tokenless_world)) = tokens_json tokenless_world /\
      count is_save (events_of (refresh_in tokenless_world)) = 0%nat)
  /\ (exists x rest r,
        has_refresh_token granted_world = true /\
        network granted_world = x :: rest /\ reply x = Some r /\
        ok r = true /\ body r = Document (tokens_of "access-2" "refresh-2" 28800)).
Proof.
  split; [ | split].
  - refine (proj1 (failed_refresh_keeps_record ID SECRET (rejected_world 400)) _).
    right. eexists _, _, _. repeat split; reflexivity.
  - exact (proj1 (failed_refresh_keeps_record ID SECRET tokenless_world)
             (or_introl eq_refl)).
  - refine (proj2 (failed_refresh_keeps_record ID SECRET granted_world)
              (tokens_of "access-2" "refresh-2" 28800) _).
    vm_compute. right. right. left. reflexivity.
Defined.

(** ** C5, C8, C2, C3: one call of [apiRequest] *)

Lemma resolve_token_step_witness :
  (* no record *)
  request_in profile_endpoint VUndefined empty_disk
  = Run (Throw no_tokens_found) empty_disk []
  (* a falsy document *)
  /\ request_in profile_endpoint VUndefined zero_disk
      = Run (Throw no_tokens_found) zero_disk []
  (* expired, and the refresh is refused *)
  /\ (request_in profile_endpoint VUndefined (expired_world [answers 400 (Document (errors_of "invalid_grant"))])
      = Run (Throw (FitbitAuthError
                      (Around "Token refresh failed: " (errors_of "invalid_grant")
                         ". Please re-authorize.")))
            (world_of (refresh_in (expired_world [answers 400 (Document (errors_of "invalid_grant"))])))
            (events_of (refresh_in (expired_world [answers 400 (Document (errors_of "invalid_grant"))])))
      /\ count is_refresh
           (events_of (refresh_in (expired_world [answers 400 (Document (errors_of "invalid_grant"))])))
         = 1%nat
      /\ count is_resource_request
           (events_of (refresh_in (expired_world [answers 400 (Document (errors_of "invalid_grant"))])))
         = 0%nat)
  (* expired, and the refresh is granted *)
  /\ (count is_refresh (events_of (refresh_in near_world)) = 1%nat /\
      count is_resource_request (events_of (refresh_in near_world)) = 0%nat /\
      exists more,
        events_of (request_in profile_endpoint VUndefined near_world) =
        events_of (refresh_in near_world)
        ++ Fetch (url_of profile_endpoint) (WithBearer (VObj []) (VStr "access-2")) :: more)
  (* valid *)
  /\ (exists more,
        events_of (request_in profile_endpoint VUndefined limited_world) =
        Fetch (url_of profile_endpoint) (WithBearer (VObj []) (VStr "access-1")) :: more).
Proof.
  split; [ | split; [ | split; [ | split]]].
  - exact (proj1 (resolve_token_step unused_StringToNumber ID SECRET
                    profile_endpoint VUndefined empty_disk eq_refl) eq_refl).
  - exact (proj1 (resolve_token_step unused_StringToNumber ID SECRET
                    profile_endpoint VUndefined zero_disk eq_refl) eq_refl).
  - refine (proj1 (proj1 (proj2 (resolve_token_step unused_StringToNumber ID SECRET
                                   profile_endpoint VUndefined
                                   (expired_world [answers 400 (Document (errors_of "invalid_grant"))])
                                   eq_refl))
                     eq_refl _)
              _ _ _ _);
      vm_compute; reflexivity.
  - refine (proj2 (proj1 (proj2 (resolve_token_step unused_StringToNumber ID SECRET
                                   profile_endpoint VUndefined near_world eq_refl))
                     eq_refl _)
              (tokens_of "access-2" "refresh-2" 28800)
              (world_of (refresh_in near_world)) (events_of (refresh_in near_world))
              _ eq_refl);
      vm_compute; reflexivity.
  - refine (proj2 (proj2 (resolve_token_step unused_StringToNumber ID SECRET
                            profile_endpoint VUndefined limited_world eq_refl))
              eq_refl _ eq_refl).
    vm_compute; reflexivity.
Defined.

Lemma non_401_failure_witness :
  request_in profile_endpoint VUndefined limited_world =
  Run (Throw (FitbitApiError
                (Around "API request failed: " (errors_of "rate_limit") EmptyString)
                429 (errors_of "rate_limit")))
      (awaited limited_world (answers 429 (Document (errors_of "rate_limit"))) [])
      ([] ++ [Fetch (url_of profile_endpoint) (WithBearer (VObj []) (VStr "access-1"))])
  /\ events_of (getValidAccessToken unused_StringToNumber ID SECRET limited_world) = [].
Proof.
  assert (E : getValidAccessToken unused_StringToNumber ID SECRET limited_world
              = Run (Return (VStr "access-1")) limited_world [])
    by (vm_compute; reflexivity).
  assert (S : status (Response 429 (Document (errors_of "rate_limit"))) <> 401)
    by discriminate.
  assert (X : isTokenExpired unused_StringToNumber limited_world
              = Run (Return false) limited_world [])
    by (vm_compute; reflexivity).
  pose proof (non_401_failure unused_StringToNumber ID SECRET profile_endpoint VUndefined
                limited_world limited_world (VStr "access-1") []
                (answers 429 (Document (errors_of "rate_limit"))) []
                (Response 429 (Document (errors_of "rate_limit"))) (errors_of "rate_limit")
                E eq_refl eq_refl eq_refl eq_refl S eq_refl eq_refl) as [Run429 Quiet].
  split; [exact Run429 | ].
  rewrite E. exact (Quiet X).
Defined.

(** C8 fails as it is stated, in two ways.  A first resource response
    429 whose body is not JSON makes the call throw the SyntaxError of
    [response.json()], not an API error.  And with expired tokens a
    call whose first resource response is a 429 has attempted a refresh:
    the pre-emptive one. *)
Lemma non_401_failure_as_stated_fails :
  (completion_of (request_in profile_endpoint VUndefined plain_429_world)
   = Throw SyntaxError /\
   forall msg statusCode errors,
     completion_of (request_in profile_endpoint VUndefined plain_429_world)
     <> Throw (FitbitApiError msg statusCode errors)) /\
  (completion_of (request_in profile_endpoint VUndefined expired_429_world)
   = Throw (request_failed 429 (errors_of "rate_limit")) /\
   count is_refresh (events_of (request_in profile_endpoint VUndefined expired_429_world))
   = 1%nat /\
   count is_refresh (events_of (request_in profile_endpoint VUndefined expired_429_world))
   <> 0%nat).
Proof.
  assert (E : completion_of (request_in profile_endpoint VUndefined plain_429_world)
              = Throw SyntaxError) by (vm_compute; reflexivity).
  assert (C : count is_refresh
                (events_of (request_in profile_endpoint VUndefined expired_429_world))
              = 1%nat) by (vm_compute; reflexivity).
  split; [split | split; [ | split]].
  - exact E.
  - intros msg statusCode errors. rewrite E. discriminate.
  - vm_compute; reflexivity.
  - exact C.
  - rewrite C. discriminate.
Qed.

(** C2, where the code departs from it.  After a 401 and a refresh that
    succeeds, the call does refresh once and retry once with the new
    access token; but when the retry is answered 500 the call throws the
    auth error of its catch clause, not an API error with the status 500
    and the body of the retry: the API error thrown in the try block is
    caught by the catch clause of that same block. *)
Theorem retry_failure_raises_auth_error :
  request_in profile_endpoint VUndefined retry_500_world =
  Run (Throw (FitbitAuthError (Literal
         "Authentication failed. Please re-authorize the application.")))
      (World (file_of (record_of "access-2" "refresh-2" 28800 (t0 + 60000 + 150 + 150)))
             false (t0 + 60000 + 150 + 150 + 150) [])
      [Fetch "https://api.fitbit.com/1/user/-/profile.json"
         (WithBearer (VObj []) (VStr "access-1"));
       Refreshing;
       Fetch "https://api.fitbit.com/oauth2/token"
         (RefreshForm ID SECRET (VStr "refresh-1"));
       Saving (tokens_of "access-2" "refresh-2" 28800);
       Fetch "https://api.fitbit.com/1/user/-/profile.json"
         (WithBearer (VObj []) (VStr "access-2"))]
  /\ completion_of (request_in profile_endpoint VUndefined retry_500_world)
     <> Throw (request_failed 500 (errors_of "system")).
Proof.
  assert (E : request_in profile_endpoint VUndefined retry_500_world =
              Run (Throw authentication_failed)
                (World (file_of (record_of "access-2" "refresh-2" 28800
                                   (t0 + 60000 + 150 + 150)))
                   false (t0 + 60000 + 150 + 150 + 150) [])
                [Fetch "https://api.fitbit.com/1/user/-/profile.json"
                   (WithBearer (VObj []) (VStr "access-1"));
                 Refreshing;
                 Fetch "https://api.fitbit.com/oauth2/token"
                   (RefreshForm ID SECRET (VStr "refresh-1"));
                 Saving (tokens_of "access-2" "refresh-2" 28800);
                 Fetch "https://api.fitbit.com/1/user/-/profile.json"
                   (WithBearer (VObj []) (VStr "access-2"))])
    by (vm_compute; reflexivity).
  split; [exact E | rewrite E; discriminate].
Qed.

Example retry_success_returns_body :
  completion_of (request_in profile_endpoint VUndefined retry_200_world) = Return profile
  /\ count is_refresh (events_of (request_in profile_endpoint VUndefined retry_200_world))
     = 1%nat
  /\ count is_resource_request
       (events_of (request_in profile_endpoint VUndefined retry_200_world)) = 2%nat.
Proof. vm_compute. repeat split. Qed.

(** C3 fails as it is stated: this one call attempts two refreshes, the
    pre-emptive one and the one that the 401 triggers. *)
Lemma two_refreshes_in_one_call :
  events_of (request_in profile_endpoint VUndefined twice_world) =
  [Refreshing;
   Fetch "https://api.fitbit.com/oauth2/token" (RefreshForm ID SECRET (VStr "refresh-1"));
   Saving (tokens_of "access-2" "refresh-2" 28800);
   Fetch "https://api.fitbit.com/1/user/-/profile.json"
     (WithBearer (VObj []) (VStr "access-2"));
   Refreshing;
   Fetch "https://api.fitbit.com/oauth2/token" (RefreshForm ID SECRET (VStr "refresh-2"));
   Saving (tokens_of "access-3" "refresh-3" 28800);
   Fetch "https://api.fitbit.com/1/user/-/profile.json"
     (WithBearer (VObj []) (VStr "access-3"))]
  /\ completion_of (request_in profile_endpoint VUndefined twice_world) = Return profile
  /\ ~ (count is_refresh (events_of (request_in profile_endpoint VUndefined twice_world))
        <= 1)%nat.
Proof.
  split; [vm_compute; reflexivity | split; [vm_compute; reflexivity | ]].
  vm_compute. intros H. inversion H as [ | ? H1]. inversion H1.
Qed.

(* ================================================================== *)
(** * Further properties of the Token Store                           *)
(* ================================================================== *)

Lemma clearTokens_world w :
  world_of (clearTokens w) =
  match tokens_json w with
  | Regular _ => if read_only w then w else with_entry Missing w
  | _ => w
  end.
Proof. destruct w as [[ | c | ] [ | ] t net]; reflexivity. Qed.

Lemma stored_at_time t w : stored (at_time t w) = stored w.
Proof. reflexivity. Qed.

(** X1.  Where the file system takes writes, [loadTokens] after
    [clearTokens] returns null whatever sat at the path (a record, a
    malformed file, a directory or nothing).  On a read-only file system
    [clearTokens] removes nothing: [loadTokens] reads after it what it
    read before. *)
Theorem clear_then_load (w : world) :
  (read_only w = false ->
   loadTokens (world_of (clearTokens w))
   = Run (Return VNull) (world_of (clearTokens w)) []) /\
  (read_only w = true ->
   loadTokens (world_of (clearTokens w))
   = Run (Return (stored w)) (world_of (clearTokens w)) []).
Proof.
  rewrite clearTokens_world.
  destruct w as [[ | [v | raw] | ] [ | ] t net]; split; intros RO;
    try discriminate; reflexivity.
Qed.

Lemma writeFileSync_throws data w e w' ev :
  writeFileSync (Some data) w = Run (Throw e) w' ev ->
  w' = w /\ ev = [] /\
  ((e = SystemError "EISDIR" /\ tokens_json w = Directory) \/
   (e = SystemError "EROFS" /\ tokens_json w <> Directory /\ read_only w = true)).
Proof.
  unfold writeFileSync.
  destruct (tokens_json w) eqn:D, (read_only w); intros E; try discriminate;
    apply run_inv in E as (E & <- & <-); injection E as <-;
    repeat split; auto; right; repeat split; discriminate.
Qed.

Lemma stringify_normalized tokens t :
  JSON_stringify (normalized tokens t) = Some (Document (serialize (normalized tokens t))).
Proof. reflexivity. Qed.

Lemma saveTokens_throws tokens w e w' ev :
  saveTokens tokens w = Run (Throw e) w' ev -> w' = w.
Proof.
  intros S. destruct (nullish tokens) eqn:N.
  - rewrite (saveTokens_nullish _ _ N) in S. apply run_inv in S as (_ & <- & _).
    reflexivity.
  - rewrite (saveTokens_run _ _ N), stringify_normalized in S.
    destruct (writeFileSync _ w) as [c w2 ev2] eqn:W. cbn [after] in S.
    apply run_inv in S as (-> & -> & _).
    destruct (writeFileSync_throws _ _ _ _ _ W) as (-> & _). reflexivity.
Qed.

(** X2.  The ways in which [saveTokens] fails, each before anything is
    written (the world is the one it was called in), the error being that
    of the step that failed, passed on as it is: the TypeError of reading
    a property of null or undefined; EISDIR when a directory sits at the
    path of the file, on a read-only file system too; the error of the
    write, whichever it is, when the file system is read-only. *)
Theorem saveTokens_failure (tokens : value) (w : world) :
  (nullish tokens = true ->
   saveTokens tokens w
   = Run (Throw (TypeError "Cannot read properties of undefined or null")) w
       [Saving tokens]) /\
  (nullish tokens = false -> tokens_json w = Directory ->
   saveTokens tokens w = Run (Throw (SystemError "EISDIR")) w [Saving tokens]) /\
  (nullish tokens = false -> read_only w = true ->
   exists code,
     saveTokens tokens w = Run (Throw (SystemError code)) w [Saving tokens]).
Proof.
  split; [apply saveTokens_nullish | split].
  - intros N D. rewrite (saveTokens_run _ _ N), stringify_normalized.
    unfold writeFileSync. rewrite D. reflexivity.
  - intros N RO. rewrite (saveTokens_run _ _ N), stringify_normalized.
    unfold writeFileSync. rewrite RO.
    destruct (tokens_json w); eexists; reflexivity.
Qed.

Lemma saveTokens_writable tokens w :
  nullish tokens = false -> read_only w = false -> tokens_json w <> Directory ->
  saveTokens tokens w
  = Run (Return tt)
      (with_entry (Regular (Document (serialize (normalized tokens (now w))))) w)
      [Saving tokens].
Proof.
  intros N RO D.
  rewrite (saveTokens_run _ _ N), stringify_normalized.
  unfold writeFileSync. rewrite RO.
  destruct (tokens_json w); try reflexivity. contradiction.
Qed.

(** X3.  [saveTokens] returns exactly when its argument is neither null
    nor undefined, the file system takes writes and no directory sits at
    the path of the file. *)
Theorem saveTokens_returns_iff (tokens : value) (w : world) :
  (exists w', saveTokens tokens w = Run (Return tt) w' [Saving tokens]) <->
  nullish tokens = false /\ read_only w = false /\ tokens_json w <> Directory.
Proof.
  split.
  - intros [w' S]. destruct (nullish tokens) eqn:N;
      [rewrite (saveTokens_nullish _ _ N) in S; discriminate | ].
    rewrite (saveTokens_run _ _ N), stringify_normalized in S.
    unfold writeFileSync in S.
    destruct (tokens_json w), (read_only w); try discriminate;
      repeat split; discriminate.
  - intros (N & RO & D). eexists. apply saveTokens_writable; assumption.
Qed.

Lemma saveTokens_returns tokens w w' ev :
  saveTokens tokens w = Run (Return tt) w' ev ->
  w' = with_entry (Regular (Document (serialize (normalized tokens (now w))))) w.
Proof.
  intros S. destruct (nullish tokens) eqn:N;
    [rewrite (saveTokens_nullish _ _ N) in S; discriminate | ].
  rewrite (saveTokens_run _ _ N), stringify_normalized in S.
  destruct (writeFileSync_returns _ _ _ _ _ S) as [-> _]. reflexivity.
Qed.

Lemma field_written_absent f k props :
  (forall x, ~ In (k, x) props) ->
  field (VObj (written f props)) k = VUndefined.
Proof.
  induction props as [ | [k' x] ps IH]; intros A; [reflexivity | ].
  assert (E : String.eqb k k' = false).
  { apply String.eqb_neq. intros ->. apply (A x). left. reflexivity. }
  assert (A' : forall y, ~ In (k, y) ps) by (intros y I; apply (A y); right; exact I).
  specialize (IH A'). simpl in IH.
  destruct x; simpl; rewrite ?E; exact IH.
Qed.

(** X4.  The record is overwritten, not merged: after a [saveTokens]
    that returns, the record that [loadTokens] reads has no property
    beside the six copied ones and [saved_at], whatever else the argument
    or the record written before held. *)
Theorem saved_record_has_no_other_field (tokens : value) (w w' : world)
    (ev : list event) (k : string) :
  saveTokens tokens w = Run (Return tt) w' ev ->
  ~ In k record_fields ->
  exists record,
    loadTokens w' = Run (Return record) w' [] /\ field record k = VUndefined.
Proof.
  intros S K. rewrite (saveTokens_returns _ _ _ _ S).
  eexists. split; [apply loadTokens_run | ].
  unfold stored, with_entry, normalized. cbn [tokens_json].
  change (serialize (VObj ?l)) with (VObj (written serialize l)).
  apply field_written_absent. intros x I. apply K.
  unfold record_fields, copied. simpl in I |- *.
  repeat (destruct I as [I | I]; [injection I as <- _; auto 10 | ]).
  contradiction.
Qed.

Section ExpiryOverTime.

Variable StringToNumber : string -> number.

Lemma ge_monotone (t t' : Z) (limit : number) :
  t <= t' -> ge (Int t) limit = true -> ge (Int t') limit = true.
Proof.
  destruct limit as [y | ]; simpl; [ | discriminate].
  rewrite !Z.leb_le. lia.
Qed.

(** X5.  Time only makes tokens expire: in every stored state, whatever
    the types of its fields, once [isTokenExpired] has answered true it
    answers true at every later time, as long as the file is the same. *)
Theorem isTokenExpired_monotone (w : world) (t t' : Z) :
  t <= t' ->
  isTokenExpired StringToNumber (at_time t w) = Run (Return true) (at_time t w) [] ->
  isTokenExpired StringToNumber (at_time t' w) = Run (Return true) (at_time t' w) [].
Proof.
  intros L. unfold isTokenExpired.
  rewrite (bind_return _ _ _ _ _ _ (loadTokens_run (at_time t w))), after_nil.
  rewrite (bind_return _ _ _ _ _ _ (loadTokens_run (at_time t' w))), after_nil.
  rewrite !stored_at_time.
  match goal with |- context [if ?c then _ else _] => destruct c end;
    [reflexivity | ].
  unfold bind, Date_now, ret, after. cbn [now at_time app].
  intros E. apply run_inv in E as (E & _). injection E as E.
  do 2 f_equal. exact (ge_monotone _ _ _ L E).
Qed.

(** X6.  After a [saveTokens] that returns, of tokens whose [expires_in]
    is an integer other than 0, at a time other than 0: read at time [t],
    [isTokenExpired] answers true exactly when
    [saved_at + expires_in*1000 - 300000 <= t], [saved_at] being the time
    of the save.  Tokens issued for five minutes or less are thus expired
    as soon as they are saved. *)
Theorem expiry_after_save (tokens : value) (w w' : world) (ev : list event)
    (expires_in t : Z) :
  saveTokens tokens w = Run (Return tt) w' ev ->
  field tokens "expires_in" = VNum (Int expires_in) ->
  expires_in <> 0 -> now w <> 0 ->
  isTokenExpired StringToNumber (at_time t w')
  = Run (Return (now w + expires_in * 1000 - 300000 <=? t)) (at_time t w') [].
Proof.
  intros S E E0 N0. rewrite (saveTokens_returns _ _ _ _ S).
  apply isTokenExpired_integers; try assumption.
  - reflexivity.
  - rewrite stored_at_time. apply saved_at_normalized.
  - rewrite stored_at_time. unfold stored, with_entry, normalized. cbn [tokens_json].
    change (serialize (VObj ?l)) with (VObj (written serialize l)).
    pass_other_fields. rewrite E.
    apply field_written_here; [discriminate | right; reflexivity].
Qed.

End ExpiryOverTime.

(* ================================================================== *)
(** * Further properties of the API Client                            *)
(* ================================================================== *)

Lemma kept_refl w ev : kept_or_saved w w ev.
Proof. split; auto. Qed.

Lemma kept_awaited w x rest ev : kept_or_saved w (awaited w x rest) ev.
Proof. split; auto. Qed.

Lemma kept_trans w w1 w2 ev1 ev2 :
  kept_or_saved w w1 ev1 -> kept_or_saved w1 w2 ev2 ->
  kept_or_saved w w2 (ev1 ++ ev2).
Proof.
  intros [R1 K1] [R2 K2]. split; [congruence | ].
  destruct K2 as [K2 | (nt & t & I & K2)].
  - rewrite K2. destruct K1 as [K1 | (nt & t & I & K1)]; [left; exact K1 | ].
    right. exists nt, t. split; [apply in_or_app; auto | exact K1].
  - right. exists nt, t. split; [apply in_or_app; auto | exact K2].
Qed.

Section ClientComposition.

Variable StringToNumber : string -> number.
Variables CLIENT_ID CLIENT_SECRET : value.

Abbreviation refresh := (refreshAccessToken CLIENT_ID CLIENT_SECRET).
Abbreviation resolve := (getValidAccessToken StringToNumber CLIENT_ID CLIENT_SECRET).
Abbreviation request := (apiRequest StringToNumber CLIENT_ID CLIENT_SECRET).
Abbreviation token_request := (Steps.token_request CLIENT_ID CLIENT_SECRET).
Abbreviation reactive := (Steps.reactive CLIENT_ID CLIENT_SECRET).
Abbreviation issued := (Steps.issued CLIENT_ID CLIENT_SECRET).
Abbreviation expired := (Steps.expired StringToNumber).

(** *** The refresh operation *)

(** A refresh that the token endpoint grants but whose save fails. *)
Lemma refresh_unsaved w x rest r newTokens e w' ev :
  has_refresh_token w = true -> network w = x :: rest -> reply x = Some r ->
  ok r = true -> body r = Document newTokens ->
  saveTokens newTokens (awaited w x rest) = Run (Throw e) w' ev ->
  refresh w =
  Run (Throw e) (awaited w x rest) [Refreshing; token_request w; Saving newTokens].
Proof.
  intros H N R O B S.
  rewrite (refresh_granted _ _ _ _ _ _ _ H N R O B).
  pose proof (saveTokens_events newTokens (awaited w x rest)) as Ev.
  pose proof (saveTokens_throws _ _ _ _ _ S) as ->.
  rewrite S in Ev |- *. cbn [events_of] in Ev. subst ev. reflexivity.
Qed.


(** X8.  A refresh returns only when a refresh token is on record, the
    token endpoint answers 2xx with a JSON body that is not null, and the
    file system takes the write; and when the refresh token on record is
    a primitive value (a string, as the token endpoint issues it), it
    returns whenever these hold. *)
Theorem refresh_returns_iff (w : world) :
  ((exists newTokens w' ev, refresh w = Run (Return newTokens) w' ev) ->
   has_refresh_token w = true /\ read_only w = false /\
   exists x rest r newTokens,
     network w = x :: rest /\ reply x = Some r /\ ok r = true /\
     body r = Document newTokens /\ nullish newTokens = false) /\
  (primitive (field (stored w) "refresh_token") = true ->
   has_refresh_token w = true /\ read_only w = false /\
   (exists x rest r newTokens,
      network w = x :: rest /\ reply x = Some r /\ ok r = true /\
      body r = Document newTokens /\ nullish newTokens = false) ->
   exists newTokens w' ev, refresh w = Run (Return newTokens) w' ev).
Proof.
  split.
  - intros (nt & w' & ev & E).
    destruct (refresh_returns _ _ _ _ _ _ E)
      as (x & rest & r & H & N & R & O & B & Nu & _ & _).
    split; [exact H | split; [ | exists x, rest, r, nt; auto]].
    destruct (read_only w) eqn:RO; [ | reflexivity].
    rewrite (refresh_granted _ _ _ _ _ _ _ H N R O B) in E.
    rewrite (saveTokens_run _ _ Nu), stringify_normalized in E.
    unfold writeFileSync in E. cbn [read_only tokens_json awaited] in E.
    rewrite RO in E. destruct (tokens_json w); discriminate.
  - intros _ (H & RO & x & rest & r & nt & N & R & O & B & Nu).
    assert (D : tokens_json (awaited w x rest) <> Directory).
    { unfold has_refresh_token, stored in H. cbn [tokens_json awaited].
      destruct (tokens_json w); try discriminate. }
    pose proof (saveTokens_writable nt (awaited w x rest) Nu RO D) as S.
    eexists nt, _, ([Refreshing; token_request w] ++ [Saving nt]).
    rewrite (refresh_granted _ _ _ _ _ _ _ H N R O B), S. reflexivity.
Qed.

Lemma refresh_events w :
  events_of (refresh w) = [Refreshing]
  \/ events_of (refresh w) = [Refreshing; token_request w]
  \/ exists newTokens,
       events_of (refresh w) = [Refreshing; token_request w; Saving newTokens].
Proof.
  destruct (has_refresh_token w) eqn:H;
    [ | rewrite (refresh_no_token _ _ _ H); auto].
  destruct (network w) as [ | x rest] eqn:N;
    [rewrite (refresh_down _ _ _ H N); auto | ].
  destruct (reply x) as [r | ] eqn:R;
    [ | rewrite (refresh_unreached _ _ _ _ _ H N R); auto].
  destruct (body r) as [v | raw] eqn:B;
    [ | rewrite (refresh_malformed _ _ _ _ _ _ _ H N R B); auto].
  destruct (ok r) eqn:O;
    [ | rewrite (refresh_rejected _ _ _ _ _ _ _ H N R O B); auto].
  rewrite (refresh_granted _ _ _ _ _ _ _ H N R O B), events_after.
  pose proof (saveTokens_events v (awaited w x rest)) as Ev.
  destruct (saveTokens v (awaited w x rest)) as [[[] | e] w2 ev2];
    simpl in Ev; subst ev2; right; right; exists v; reflexivity.
Qed.

Lemma refresh_throws w e w' ev :
  refresh w = Run (Throw e) w' ev ->
  w' = w \/ exists x rest, network w = x :: rest /\ w' = awaited w x rest.
Proof.
  intros E.
  destruct (has_refresh_token w) eqn:H;
    [ | rewrite (refresh_no_token _ _ _ H) in E; apply run_inv in E as (_ & <- & _); auto].
  destruct (network w) as [ | x rest] eqn:N;
    [rewrite (refresh_down _ _ _ H N) in E; apply run_inv in E as (_ & <- & _); auto | ].
  right. exists x, rest. split; [reflexivity | ].
  destruct (reply x) as [r | ] eqn:R;
    [ | rewrite (refresh_unreached _ _ _ _ _ H N R) in E;
        apply run_inv in E as (_ & <- & _); reflexivity].
  destruct (body r) as [v | raw] eqn:B;
    [ | rewrite (refresh_malformed _ _ _ _ _ _ _ H N R B) in E;
        apply run_inv in E as (_ & <- & _); reflexivity].
  destruct (ok r) eqn:O;
    [ | rewrite (refresh_rejected _ _ _ _ _ _ _ H N R O B) in E;
        apply run_inv in E as (_ & <- & _); reflexivity].
  destruct (saveTokens v (awaited w x rest)) as [[[] | e2] w2 ev2] eqn:S.
  - rewrite (refresh_granted _ _ _ _ _ _ _ H N R O B), S in E. discriminate.
  - rewrite (refresh_unsaved _ _ _ _ _ _ _ _ H N R O B S) in E.
    apply run_inv in E as (_ & <- & _). reflexivity.
Qed.

Lemma refresh_storage w :
  kept_or_saved w (world_of (refresh w)) (events_of (refresh w)).
Proof.
  destruct (refresh w) as [[nt | e] w' ev] eqn:E; cbn [world_of events_of].
  - destruct (refresh_returns _ _ _ _ _ _ E)
      as (x & rest & r & _ & _ & _ & _ & _ & _ & -> & ->).
    split; [reflexivity | right].
    exists nt, (now w + elapsed x). split; [simpl; auto | reflexivity].
  - destruct (refresh_throws _ _ _ _ E) as [-> | (x & rest & _ & ->)];
      [apply kept_refl | apply kept_awaited].
Qed.

Lemma resolve_storage w :
  kept_or_saved w (world_of (resolve w)) (events_of (resolve w)).
Proof.
  destruct (truthy (stored w)) eqn:T;
    [ | rewrite (resolve_absent _ _ _ _ T); apply kept_refl].
  destruct (expired w) eqn:X;
    [ | rewrite (resolve_valid _ _ _ _ T X); apply kept_refl].
  rewrite (resolve_expired _ _ _ _ T X).
  pose proof (refresh_storage w) as K.
  destruct (refresh w) as [[nt | e] w' ev]; exact K.
Qed.

Lemma reactive_storage url options w :
  nullish options = false ->
  kept_or_saved w (world_of (reactive url options w)) (events_of (reactive url options w)).
Proof.
  intros N. pose proof (refresh_storage w) as K.
  destruct (refresh w) as [[nt | e] w' ev] eqn:E; cbn [world_of events_of] in K.
  - destruct (network w') as [ | x rest] eqn:Net.
    + rewrite (reactive_retry_down _ _ _ _ _ _ _ _ N E Net).
      apply (kept_trans _ _ _ _ _ K), kept_refl.
    + rewrite (reactive_retry _ _ _ _ _ _ _ _ _ _ N E Net).
      apply (kept_trans _ _ _ _ _ K), kept_awaited.
  - rewrite (reactive_refused _ _ _ _ _ _ _ _ E). exact K.
Qed.

Lemma issued_storage url options accessToken w :
  kept_or_saved w (world_of (issued url options accessToken w))
    (events_of (issued url options accessToken w)).
Proof.
  destruct (nullish options) eqn:N;
    [rewrite (issued_nullish _ _ _ _ _ _ N); apply kept_refl | ].
  destruct (network w) as [ | x rest] eqn:Net;
    [rewrite (issued_down _ _ _ _ _ _ N Net); apply kept_refl | ].
  destruct (reply x) as [r | ] eqn:R;
    [ | rewrite (issued_unreached _ _ _ _ _ _ _ _ N Net R); apply kept_awaited].
  destruct (Z.eq_dec (status r) 401) as [S | S];
    [ | rewrite (issued_other _ _ _ _ _ _ _ _ _ N Net R S); apply kept_awaited].
  rewrite (issued_401 _ _ _ _ _ _ _ _ _ N Net R S), world_after, events_after.
  apply (kept_trans w (awaited w x rest)); [apply kept_awaited | ].
  apply reactive_storage, N.
Qed.

(** X9.  What a call of [apiRequest] does to the token file: it never
    changes whether the file system takes writes, and it leaves the entry
    at the path of the file as it found it, unless it has saved tokens,
    in which case the file holds the record of tokens that it saved.  A
    call never removes the file and never leaves it malformed. *)
Theorem apiRequest_storage (endpoint : string) (options : value) (w : world) :
  kept_or_saved w (world_of (request endpoint options w))
    (events_of (request endpoint options w)).
Proof.
  rewrite request_unfold. pose proof (resolve_storage w) as K.
  destruct (resolve w) as [[tok | e] w1 ev1]; cbn [world_of events_of] in K.
  - rewrite world_after, events_after.
    apply (kept_trans _ _ _ _ _ K), issued_storage.
  - exact K.
Qed.

Abbreviation expected_by url options :=
  (expected CLIENT_ID CLIENT_SECRET url options).

Lemma refresh_expected url options w :
  Forall (expected_by url options) (events_of (refresh w)).
Proof.
  destruct (refresh_events w) as [-> | [-> | [nt ->]]];
    repeat constructor.
Qed.

Lemma resolve_expected url options w :
  Forall (expected_by url options) (events_of (resolve w)).
Proof.
  destruct (truthy (stored w)) eqn:T;
    [ | rewrite (resolve_absent _ _ _ _ T); constructor].
  destruct (expired w) eqn:X;
    [ | rewrite (resolve_valid _ _ _ _ T X); constructor].
  rewrite (resolve_expired _ _ _ _ T X).
  pose proof (refresh_expected url options w) as F.
  destruct (refresh w) as [[nt | e] w' ev]; exact F.
Qed.

Lemma reactive_expected url options w :
  nullish options = false ->
  Forall (expected_by url options) (events_of (reactive url options w)).
Proof.
  intros N. pose proof (refresh_expected url options w) as F.
  destruct (refresh w) as [[nt | e] w' ev] eqn:E; cbn [events_of] in F.
  - destruct (network w') as [ | x rest] eqn:Net.
    + rewrite (reactive_retry_down _ _ _ _ _ _ _ _ N E Net). cbn [events_of].
      apply Forall_app. split; [exact F | repeat constructor].
    + rewrite (reactive_retry _ _ _ _ _ _ _ _ _ _ N E Net). cbn [events_of].
      apply Forall_app. split; [exact F | repeat constructor].
  - rewrite (reactive_refused _ _ _ _ _ _ _ _ E). exact F.
Qed.

Lemma issued_expected url options accessToken w :
  Forall (expected_by url options) (events_of (issued url options accessToken w)).
Proof.
  destruct (nullish options) eqn:N;
    [rewrite (issued_nullish _ _ _ _ _ _ N); constructor | ].
  destruct (network w) as [ | x rest] eqn:Net;
    [rewrite (issued_down _ _ _ _ _ _ N Net); repeat constructor | ].
  destruct (reply x) as [r | ] eqn:R;
    [ | rewrite (issued_unreached _ _ _ _ _ _ _ _ N Net R); repeat constructor].
  destruct (Z.eq_dec (status r) 401) as [S | S];
    [ | rewrite (issued_other _ _ _ _ _ _ _ _ _ N Net R S); repeat constructor].
  rewrite (issued_401 _ _ _ _ _ _ _ _ _ N Net R S), events_after.
  apply Forall_app. split; [repeat constructor | apply reactive_expected, N].
Qed.

Lemma request_expected endpoint options w :
  Forall (expected_by (url_of endpoint) (or_default options))
    (events_of (request endpoint options w)).
Proof.
  rewrite request_unfold.
  pose proof (resolve_expected (url_of endpoint) (or_default options) w) as F.
  destruct (resolve w) as [[tok | e] w1 ev1]; cbn [events_of] in F.
  - rewrite events_after. apply Forall_app. split; [exact F | apply issued_expected].
  - exact F.
Qed.

(** X10.  Every HTTP request of a call of [apiRequest] is one of two: a
    request to the token endpoint with the client's credentials, or the
    resource request, which has the same URL and the same options each
    time it is sent (the retry repeats the request; only the bearer
    changes). *)
Theorem apiRequest_requests (endpoint : string) (options : value) (w : world)
    (url : string) (i : init) :
  In (Fetch url i) (events_of (request endpoint options w)) ->
  match i with
  | RefreshForm id secret _ =>
      url = token_url /\ id = CLIENT_ID /\ secret = CLIENT_SECRET
  | WithBearer sent _ =>
      url = url_of endpoint /\ sent = or_default options
  end.
Proof.
  intros I.
  pose proof (request_expected endpoint options w) as F.
  rewrite Forall_forall in F. specialize (F _ I).
  destruct i; exact F.
Qed.

(** X16.  After a refresh that returns tokens whose [expires_in] is an
    integer other than 0 (the response having arrived at a time other
    than 0): read at time [t], [isTokenExpired] answers true exactly when
    [arrival + expires_in*1000 - 300000 <= t].  Until then the next calls
    use the new access token without refreshing again. *)
Theorem expiry_after_refresh (w w' : world) (newTokens : value) (ev : list event)
    (expires_in t : Z) :
  refresh w = Run (Return newTokens) w' ev ->
  field newTokens "expires_in" = VNum (Int expires_in) ->
  expires_in <> 0 -> now w' <> 0 ->
  isTokenExpired StringToNumber (at_time t w')
  = Run (Return (now w' + expires_in * 1000 - 300000 <=? t)) (at_time t w') [].
Proof.
  intros E X X0 N0.
  destruct (refresh_returns _ _ _ _ _ _ E)
    as (x & rest & r & _ & _ & _ & _ & _ & _ & _ & ->).
  cbn [now with_entry awaited] in N0 |- *.
  apply isTokenExpired_integers; try assumption.
  - reflexivity.
  - rewrite stored_at_time. apply saved_at_normalized.
  - rewrite stored_at_time. unfold stored, with_entry, normalized. cbn [tokens_json].
    change (serialize (VObj ?l)) with (VObj (written serialize l)).
    pass_other_fields. rewrite X.
    apply field_written_here; [discriminate | right; reflexivity].
Qed.

(** *** The outcomes of a call *)

Lemma ok_not_401 r : ok r = true -> status r <> 401.
Proof.
  unfold ok. intros O. apply andb_true_iff in O as [_ O].
  apply Z.leb_le in O. lia.
Qed.

(** X11.  With tokens on record that have not expired and whose access
    token is a primitive value, a resource response 2xx whose body parses
    makes the call return the parsed body after a single request that
    bears the stored access token: no refresh, no write, no second
    request. *)
Theorem valid_token_success (endpoint : string) (options : value) (w : world)
    (x : exchange) (rest : list exchange) (r : response) (data : value) :
  truthy (stored w) = true ->
  isTokenExpired StringToNumber w = Run (Return false) w [] ->
  primitive (field (stored w) "access_token") = true ->
  nullish (or_default options) = false ->
  network w = x :: rest -> reply x = Some r ->
  ok r = true -> body r = Document data ->
  request endpoint options w =
  Run (Return data) (awaited w x rest)
      [Fetch (url_of endpoint)
         (WithBearer (or_default options) (field (stored w) "access_token"))].
Proof.
  intros T X _ N Net R O B. apply expired_false in X.
  rewrite request_unfold, (resolve_valid _ _ _ _ T X), after_nil.
  rewrite (issued_other _ _ _ _ _ _ _ _ _ N Net R (ok_not_401 _ O)).
  unfold settled. rewrite B, O. reflexivity.
Qed.

(** X12.  Once the access token is resolved to a primitive value, a
    first resource response that is not a 401 and whose body is not JSON,
    whatever its status, makes the call throw the SyntaxError of the
    parse as it is; no refresh and no retry follow. *)
Theorem unparsable_body (endpoint : string) (options : value) (w w1 : world)
    (accessToken : value) (ev1 : list event)
    (x : exchange) (rest : list exchange) (r : response) (raw : string) :
  resolve w = Run (Return accessToken) w1 ev1 ->
  primitive accessToken = true ->
  nullish (or_default options) = false ->
  network w1 = x :: rest -> reply x = Some r ->
  status r <> 401 -> body r = Malformed raw ->
  request endpoint options w =
  Run (Throw SyntaxError) (awaited w1 x rest)
      (ev1 ++ [Fetch (url_of endpoint) (WithBearer (or_default options) accessToken)]).
Proof.
  intros E _ N Net R S B.
  rewrite request_unfold, E, (issued_other _ _ _ _ _ _ _ _ _ N Net R S).
  unfold settled. rewrite B. reflexivity.
Qed.

(** X13.  Once the access token is resolved to a primitive value, when
    the server cannot be reached for the resource request, the call
    throws the error of [fetch] as it is, after that one
    attempt: no refresh and no retry follow. *)
Theorem unreachable_server (endpoint : string) (options : value) (w w1 : world)
    (accessToken : value) (ev1 : list event) :
  resolve w = Run (Return accessToken) w1 ev1 ->
  primitive accessToken = true ->
  nullish (or_default options) = false ->
  (network w1 = [] \/ exists x rest, network w1 = x :: rest /\ reply x = None) ->
  completion_of (request endpoint options w) = Throw (TypeError "fetch failed") /\
  events_of (request endpoint options w) =
  ev1 ++ [Fetch (url_of endpoint) (WithBearer (or_default options) accessToken)].
Proof.
  intros E _ N [Net | (x & rest & Net & R)]; rewrite request_unfold, E.
  - rewrite (issued_down _ _ _ _ _ _ N Net). split; reflexivity.
  - rewrite (issued_unreached _ _ _ _ _ _ _ _ N Net R). split; reflexivity.
Qed.

(** X14.  Once the access token is resolved to a primitive value, when
    the resource answers 401 and the refresh that follows throws, the
    call sends no retry.  An auth error of the refresh (no
    refresh token on record, 400 or 401 from the token endpoint) is thrown
    on as it is; every other error of the refresh (another status of the
    token endpoint, a server that cannot be reached, a body that is not
    JSON, a write that fails) is replaced by the auth error
    "Authentication failed". *)
Theorem refresh_failure_after_401 (endpoint : string) (options : value)
    (w w1 w2 : world) (accessToken : value) (ev1 ev2 : list event)
    (x : exchange) (rest : list exchange) (r : response) (e : error) :
  resolve w = Run (Return accessToken) w1 ev1 ->
  primitive accessToken = true ->
  nullish (or_default options) = false ->
  network w1 = x :: rest -> reply x = Some r -> status r = 401 ->
  refresh (awaited w1 x rest) = Run (Throw e) w2 ev2 ->
  request endpoint options w =
  Run (Throw (if is_auth_error e then e else authentication_failed)) w2
      (ev1 ++ Fetch (url_of endpoint) (WithBearer (or_default options) accessToken)
           :: ev2)
  /\ count is_resource_request ev2 = 0%nat.
Proof.
  intros E _ N Net R S E2. split.
  - rewrite request_unfold, E, (issued_401 _ _ _ _ _ _ _ _ _ N Net R S).
    rewrite (reactive_refused _ _ _ _ _ _ _ _ E2). reflexivity.
  - pose proof (refresh_traced CLIENT_ID CLIENT_SECRET (awaited w1 x rest)) as RT.
    rewrite E2 in RT. cbn [events_of] in RT. destruct RT; reflexivity.
Qed.

(** *** The read-only operations *)

(** What a call sends once its access token is resolved: after the events
    of the resolve-token step, the resource request for the URL of the
    endpoint, bearing that token. *)
Lemma request_sends endpoint w accessToken w1 ev1 :
  resolve w = Run (Return accessToken) w1 ev1 ->
  exists more,
    events_of (request endpoint VUndefined w) =
    ev1 ++ Fetch (url_of endpoint) (WithBearer (VObj []) accessToken) :: more.
Proof.
  intros E. rewrite request_unfold, E, events_after.
  destruct (issued_first CLIENT_ID CLIENT_SECRET
              (url_of endpoint) (or_default VUndefined) accessToken w1 eq_refl)
    as [more ->].
  exists more. reflexivity.
Qed.

(** X15.  Each of the five operations asks for its own path under
    [API_BASE_URL], with no options; the two that take a date range
    splice the two dates into the path as they are given, valid or
    not.  Every resource request that an operation sends is for its own
    URL; and once the access token is resolved to a primitive value, the
    operation does send the request for that URL, bearing that token,
    right after the events of the resolve-token step. *)
Theorem operations_urls (startDate endDate : string) (w : world) :
  (Forall (expected_by "https://api.fitbit.com/1/user/-/profile.json" (VObj []))
     (events_of (getProfile StringToNumber CLIENT_ID CLIENT_SECRET w)) /\
   Forall (expected_by
             ("https://api.fitbit.com/1/user/-/body/log/weight/date/"
              ++ startDate ++ "/" ++ endDate ++ ".json")%string (VObj []))
     (events_of (getWeightLogs StringToNumber CLIENT_ID CLIENT_SECRET startDate endDate w)) /\
   Forall (expected_by
             ("https://api.fitbit.com/1/user/-/body/log/fat/date/"
              ++ startDate ++ "/" ++ endDate ++ ".json")%string (VObj []))
     (events_of (getBodyFatLogs StringToNumber CLIENT_ID CLIENT_SECRET startDate endDate w)) /\
   Forall (expected_by "https://api.fitbit.com/1/user/-/body/log/weight/goal.json" (VObj []))
     (events_of (getWeightGoal StringToNumber CLIENT_ID CLIENT_SECRET w)) /\
   Forall (expected_by "https://api.fitbit.com/1/user/-/body/log/fat/goal.json" (VObj []))
     (events_of (getBodyFatGoal StringToNumber CLIENT_ID CLIENT_SECRET w))) /\
  (forall accessToken w1 ev1,
     resolve w = Run (Return accessToken) w1 ev1 ->
     primitive accessToken = true ->
     (exists more,
        events_of (getProfile StringToNumber CLIENT_ID CLIENT_SECRET w) =
        ev1 ++ Fetch "https://api.fitbit.com/1/user/-/profile.json"
                 (WithBearer (VObj []) accessToken) :: more) /\
     (exists more,
        events_of (getWeightLogs StringToNumber CLIENT_ID CLIENT_SECRET startDate endDate w) =
        ev1 ++ Fetch ("https://api.fitbit.com/1/user/-/body/log/weight/date/"
                      ++ startDate ++ "/" ++ endDate ++ ".json")%string
                 (WithBearer (VObj []) accessToken) :: more) /\
     (exists more,
        events_of (getBodyFatLogs StringToNumber CLIENT_ID CLIENT_SECRET startDate endDate w) =
        ev1 ++ Fetch ("https://api.fitbit.com/1/user/-/body/log/fat/date/"
                      ++ startDate ++ "/" ++ endDate ++ ".json")%string
                 (WithBearer (VObj []) accessToken) :: more) /\
     (exists more,
        events_of (getWeightGoal StringToNumber CLIENT_ID CLIENT_SECRET w) =
        ev1 ++ Fetch "https://api.fitbit.com/1/user/-/body/log/weight/goal.json"
                 (WithBearer (VObj []) accessToken) :: more) /\
     (exists more,
        events_of (getBodyFatGoal StringToNumber CLIENT_ID CLIENT_SECRET w) =
        ev1 ++ Fetch "https://api.fitbit.com/1/user/-/body/log/fat/goal.json"
                 (WithBearer (VObj []) accessToken) :: more)).
Proof.
  split.
  - repeat split.
    + exact (request_expected "/1/user/-/profile.json" VUndefined w).
    + exact (request_expected
               ("/1/user/-/body/log/weight/date/" ++ startDate ++ "/" ++ endDate ++ ".json")
               VUndefined w).
    + exact (request_expected
               ("/1/user/-/body/log/fat/date/" ++ startDate ++ "/" ++ endDate ++ ".json")
               VUndefined w).
    + exact (request_expected "/1/user/-/body/log/weight/goal.json" VUndefined w).
    + exact (request_expected "/1/user/-/body/log/fat/goal.json" VUndefined w).
  - intros accessToken w1 ev1 E _. repeat split.
    + exact (request_sends "/1/user/-/profile.json" w _ _ _ E).
    + exact (request_sends
               ("/1/user/-/body/log/weight/date/" ++ startDate ++ "/" ++ endDate ++ ".json")
               w _ _ _ E).
    + exact (request_sends
               ("/1/user/-/body/log/fat/date/" ++ startDate ++ "/" ++ endDate ++ ".json")
               w _ _ _ E).
    + exact (request_sends "/1/user/-/body/log/weight/goal.json" w _ _ _ E).
    + exact (request_sends "/1/user/-/body/log/fat/goal.json" w _ _ _ E).
Qed.

End ClientComposition.

(* ================================================================== *)
(** * Properties of the main program                                  *)
(* ================================================================== *)

Import Index.

Lemma bind_returns {A B} (m : M A) (k : A -> M B) w b w' ev :
  bind m k w = Run (Return b) w' ev ->
  exists a w1 ev1 ev2,
    m w = Run (Return a) w1 ev1 /\ k a w1 = Run (Return b) w' ev2 /\ ev = ev1 ++ ev2.
Proof.
  unfold bind. destruct (m w) as [[a | e] w1 ev1]; [ | discriminate].
  destruct (k a w1) as [c w2 ev2] eqn:K. cbn [after]. intros E.
  apply run_inv in E as (-> & -> & <-).
  exists a, w1, ev1, ev2. auto.
Qed.

Lemma silent_ret {A} (a : A) : silent (ret a).
Proof. intros w. split; reflexivity. Qed.

Lemma silent_throw {A} e : silent (@throw A e).
Proof. intros w. split; reflexivity. Qed.

Lemma silent_get v k : silent (get v k).
Proof. intros w. unfold get. destruct (nullish v); split; reflexivity. Qed.

Lemma silent_bind {A B} (m : M A) (k : A -> M B) :
  silent m -> (forall a, silent (k a)) -> silent (bind m k).
Proof.
  intros Sm Sk w. unfold bind. specialize (Sm w).
  destruct (m w) as [[a | e] w1 ev1]; cbn [world_of events_of] in Sm;
    destruct Sm as [-> ->]; [ | split; reflexivity].
  specialize (Sk a w). destruct (k a w) as [c w2 ev2].
  cbn [world_of events_of after] in *. destruct Sk as [-> ->]. split; reflexivity.
Qed.

Lemma silent_forEach v callback :
  (forall entry, silent (callback entry)) -> silent (forEach v callback).
Proof.
  intros Sc. destruct v; try apply silent_throw.
  simpl. induction items as [ | entry rest IH]; [apply silent_ret | ].
  apply silent_bind; [apply Sc | intros _; exact IH].
Qed.

Lemma silent_returns {A} (m : M A) w a w' ev :
  silent m -> m w = Run (Return a) w' ev -> w' = w /\ ev = [].
Proof.
  intros S E. specialize (S w). rewrite E in S. exact S.
Qed.

Section MainFacts.

Variable StringToNumber : string -> number.
Variables CLIENT_ID CLIENT_SECRET : value.
Variable toISOString : Z -> string.
Variable days_earlier : Z -> Z -> Z.

Abbreviation main_in :=
  (main StringToNumber CLIENT_ID CLIENT_SECRET toISOString days_earlier).
Abbreviation profile_in := (getProfile StringToNumber CLIENT_ID CLIENT_SECRET).
Abbreviation weight_in := (getWeightLogs StringToNumber CLIENT_ID CLIENT_SECRET).
Abbreviation fat_in := (getBodyFatLogs StringToNumber CLIENT_ID CLIENT_SECRET).
Abbreviation range_at t :=
  (formatDate toISOString (days_earlier 30 t), formatDate toISOString t).

Lemma getDateRange_run days w :
  getDateRange toISOString days_earlier days w
  = Run (Return (formatDate toISOString (days_earlier days (now w)),
                 formatDate toISOString (now w))) w [].
Proof. reflexivity. Qed.

(** X17.  [main] never lets an error out: in every world it ends, either
    by an exit or at its end.  With no tokens to read (no file, a file
    that cannot be read or parsed, a falsy document) it exits with code 1
    before any request is sent and without touching the file. *)
Theorem main_ends (w : world) :
  (exists (e : ending) w' ev, main_in w = Run (Return e) w' ev) /\
  (truthy (stored w) = false -> main_in w = Run (Return (Exited 1)) w []).
Proof.
  unfold main.
  rewrite (bind_return _ _ _ _ _ _ (loadTokens_run w)), after_nil.
  destruct (truthy (stored w)); cbn [negb].
  - split; [ | discriminate].
    unfold try_catch.
    match goal with |- context [match ?m w with _ => _ end] =>
      destruct (m w) as [[e | err] w' ev] end; cbn; eauto.
  - split; [ | reflexivity]. eexists _, _, _. reflexivity.
Qed.

(** X18.  [main] stops at the first call that fails.  When the profile
    call throws, [main] exits with code 1 in the world and with the
    events of that call: the weight logs and the body-fat logs are not
    asked for.  When the profile call returns a profile with a [user]
    whose [displayName] and [memberSince] are primitive values (so that
    the greeting is printed) and the weight-logs call throws, [main]
    exits with code 1 after the events of these two calls: the body-fat
    logs are not asked for. *)
Theorem main_stops_at_first_failure (w : world) :
  truthy (stored w) = true ->
  (forall e w1 ev1,
     profile_in w = Run (Throw e) w1 ev1 ->
     main_in w = Run (Return (Exited 1)) w1 ev1) /\
  (forall profileData w1 ev1 e w2 ev2,
     profile_in w = Run (Return profileData) w1 ev1 ->
     nullish (field profileData "user") = false ->
     primitive (field (field profileData "user") "displayName") = true ->
     primitive (field (field profileData "user") "memberSince") = true ->
     weight_in (fst (range_at (now w1))) (snd (range_at (now w1))) w1
     = Run (Throw e) w2 ev2 ->
     main_in w = Run (Return (Exited 1)) w2 (ev1 ++ ev2)).
Proof.
  intros T. unfold main.
  rewrite (bind_return _ _ _ _ _ _ (loadTokens_run w)), after_nil, T. cbn [negb].
  split.
  - intros e w1 ev1 P. unfold try_catch.
    rewrite (bind_throw _ _ _ _ _ _ P). cbn. rewrite app_nil_r. reflexivity.
  - intros pd w1 ev1 e w2 ev2 P U _ _ W. unfold try_catch.
    rewrite (bind_return _ _ _ _ _ _ P).
    assert (Npd : nullish pd = false) by (destruct pd; try reflexivity; discriminate).
    rewrite (bind_return _ _ _ _ _ _ (get_run _ _ _ Npd)), after_nil.
    do 2 rewrite (bind_return _ _ _ _ _ _ (get_run _ _ _ U)), after_nil.
    rewrite (bind_return _ _ _ _ _ _ (getDateRange_run 30 w1)), after_nil.
    rewrite (bind_throw _ _ _ _ _ _ W). cbn. rewrite app_nil_r. reflexivity.
Qed.

Lemma silent_listing v (callback : value -> M unit) :
  (forall entry, silent (callback entry)) ->
  silent (if truthy v && positive StringToNumber (length_of v)
          then forEach v callback
          else ret tt).
Proof.
  intros Sc. destruct (truthy v && positive StringToNumber (length_of v));
    [apply silent_forEach, Sc | apply silent_ret].
Qed.

Lemma silent_entry k1 k2 entry :
  silent (bind (get entry k1) (fun _ => bind (get entry k2) (fun _ => ret tt))).
Proof.
  apply silent_bind; [apply silent_get | intros _].
  apply silent_bind; [apply silent_get | intros _; apply silent_ret].
Qed.

Ltac next_step H :=
  let E := fresh "E" in
  apply bind_returns in H as (? & ? & ? & ? & E & H & ->).

Ltac silent_step H lemma :=
  let E := fresh "E" in
  let a := fresh "a" in
  apply bind_returns in H as (a & ? & ? & ? & E & H & ->);
  apply (silent_returns _ _ _ _ _ lemma) in E as [-> ->].

(** X19.  [main] reaches its end only when the three calls have
    returned, one after the other: the profile, then the weight logs and
    the body-fat logs of the same date range, the thirty days before the
    time at which the profile arrived.  Its events are those of the
    three calls, in that order, and nothing else. *)
Theorem main_finished (w w' : world) (ev : list event) :
  main_in w = Run (Return Finished) w' ev ->
  exists profileData weightData fatData w1 w2 ev1 ev2 ev3,
    profile_in w = Run (Return profileData) w1 ev1 /\
    weight_in (fst (range_at (now w1))) (snd (range_at (now w1))) w1
    = Run (Return weightData) w2 ev2 /\
    fat_in (fst (range_at (now w1))) (snd (range_at (now w1))) w2
    = Run (Return fatData) w' ev3 /\
    ev = ev1 ++ ev2 ++ ev3.
Proof.
  unfold main.
  rewrite (bind_return _ _ _ _ _ _ (loadTokens_run w)), after_nil.
  destruct (truthy (stored w)); cbn [negb]; [ | discriminate].
  unfold try_catch.
  match goal with |- context [match ?m w with _ => _ end] =>
    destruct (m w) as [[e | err] w0 ev0] eqn:H end; [ | discriminate].
  intros F. apply run_inv in F as (F & -> & ->). injection F as ->.
  apply bind_returns in H as (pd & w1 & ev1 & ? & P & H & ->).
  silent_step H (silent_get pd "user").
  silent_step H (silent_get a "displayName").
  silent_step H (silent_get a "memberSince").
  apply bind_returns in H as (range & ? & ? & ? & R & H & ->).
  rewrite getDateRange_run in R. apply run_inv in R as (R & <- & <-).
  injection R as <-.
  apply bind_returns in H as (wd & w2 & ev2 & ? & W & H & ->).
  silent_step H (silent_get a "weightUnit").
  silent_step H (silent_get wd "weight").
  silent_step H (silent_listing a3 _ (silent_entry "weight" "date")).
  apply bind_returns in H as (fd & w3 & ev3 & ? & B & H & ->).
  silent_step H (silent_get fd "fat").
  silent_step H (silent_listing a5 _ (silent_entry "date" "fat")).
  apply run_inv in H as (_ & <- & <-).
  exists pd, wd, fd, w1, w2, ev1, ev2, ev3.
  repeat split; try assumption.
  simpl. rewrite ?app_nil_r. reflexivity.
Qed.

End MainFacts.

(* ================================================================== *)
(** * Concrete runs of the further properties                         *)
(* ================================================================== *)

Lemma clear_then_load_witness :
  loadTokens (world_of (clearTokens written_disk))
  = Run (Return VNull) (world_of (clearTokens written_disk)) []
  /\ loadTokens (world_of (clearTokens locked_world))
     = Run (Return (stored locked_world)) (world_of (clearTokens locked_world)) [].
Proof.
  split.
  - exact (proj1 (clear_then_load written_disk) eq_refl).
  - exact (proj2 (clear_then_load locked_world) eq_refl).
Defined.

Lemma saveTokens_failure_witness :
  saveTokens VNull empty_disk
  = Run (Throw (TypeError "Cannot read properties of undefined or null")) empty_disk
      [Saving VNull]
  /\ saveTokens verbose_tokens blocked_world
     = Run (Throw (SystemError "EISDIR")) blocked_world [Saving verbose_tokens]
  /\ exists code,
       saveTokens verbose_tokens locked_world
       = Run (Throw (SystemError code)) locked_world [Saving verbose_tokens].
Proof.
  split; [ | split].
  - exact (proj1 (saveTokens_failure VNull empty_disk) eq_refl).
  - exact (proj1 (proj2 (saveTokens_failure verbose_tokens blocked_world))
             eq_refl eq_refl).
  - exact (proj2 (proj2 (saveTokens_failure verbose_tokens locked_world))
             eq_refl eq_refl).
Defined.

Lemma saveTokens_returns_iff_witness :
  exists w', saveTokens verbose_tokens empty_disk = Run (Return tt) w' [Saving verbose_tokens].
Proof.
  refine (proj2 (saveTokens_returns_iff verbose_tokens empty_disk)
            (conj eq_refl (conj eq_refl _))).
  discriminate.
Defined.

Lemma saved_record_has_no_other_field_witness :
  field verbose_tokens "id_token" = VStr "eyJhbGciOi" /\
  exists record,
    loadTokens (world_of (saveTokens verbose_tokens empty_disk))
    = Run (Return record) (world_of (saveTokens verbose_tokens empty_disk)) [] /\
    field record "id_token" = VUndefined.
Proof.
  split; [reflexivity | ].
  refine (saved_record_has_no_other_field verbose_tokens empty_disk
            (world_of (saveTokens verbose_tokens empty_disk))
            [Saving verbose_tokens] "id_token" _ _).
  - vm_compute; reflexivity.
  - vm_compute. intuition discriminate.
Defined.

Lemma isTokenExpired_monotone_witness :
  isTokenExpired unused_StringToNumber (at_time (t0 + 28800000) quiet_world)
  = Run (Return true) (at_time (t0 + 28800000) quiet_world) [].
Proof.
  refine (isTokenExpired_monotone unused_StringToNumber quiet_world
            (t0 + 28500000) (t0 + 28800000) _ _).
  - vm_compute; discriminate.
  - vm_compute; reflexivity.
Defined.

Lemma expiry_after_save_witness :
  isTokenExpired unused_StringToNumber
    (at_time (t0 + 3600000) (world_of (saveTokens verbose_tokens empty_disk)))
  = Run (Return (now empty_disk + 28800 * 1000 - 300000 <=? t0 + 3600000))
      (at_time (t0 + 3600000) (world_of (saveTokens verbose_tokens empty_disk))) [].
Proof.
  refine (expiry_after_save unused_StringToNumber verbose_tokens empty_disk
            (world_of (saveTokens verbose_tokens empty_disk)) [Saving verbose_tokens]
            28800 (t0 + 3600000) _ eq_refl _ _).
  - vm_compute; reflexivity.
  - discriminate.
  - discriminate.
Defined.


Lemma refresh_returns_iff_witness :
  exists newTokens w' ev, refresh_in granted_world = Run (Return newTokens) w' ev.
Proof.
  refine (proj2 (refresh_returns_iff ID SECRET granted_world) eq_refl
            (conj eq_refl (conj eq_refl _))).
  eexists _, _, _, _. repeat split; reflexivity.
Defined.

Lemma apiRequest_requests_witness :
  "https://api.fitbit.com/1/user/-/profile.json" = url_of profile_endpoint
  /\ VObj [] = or_default VUndefined.
Proof.
  refine (apiRequest_requests unused_StringToNumber ID SECRET profile_endpoint VUndefined
            retry_200_world "https://api.fitbit.com/1/user/-/profile.json"
            (WithBearer (VObj []) (VStr "access-2")) _).
  vm_compute. auto 10.
Defined.

Lemma valid_token_success_witness :
  request_in profile_endpoint VUndefined served_world =
  Run (Return profile) (awaited served_world (answers 200 (Document profile)) [])
      [Fetch (url_of profile_endpoint)
         (WithBearer (or_default VUndefined) (field (stored served_world) "access_token"))].
Proof.
  refine (valid_token_success unused_StringToNumber ID SECRET profile_endpoint VUndefined
            served_world (answers 200 (Document profile)) []
            (Response 200 (Document profile)) profile
            eq_refl _ eq_refl eq_refl eq_refl eq_refl eq_refl eq_refl).
  vm_compute; reflexivity.
Defined.

Lemma unparsable_body_witness :
  request_in profile_endpoint VUndefined plain_429_world =
  Run (Throw SyntaxError)
      (awaited plain_429_world (answers 429 (Malformed "Too Many Requests")) [])
      ([] ++ [Fetch (url_of profile_endpoint)
                (WithBearer (or_default VUndefined) (VStr "access-1"))]).
Proof.
  refine (unparsable_body unused_StringToNumber ID SECRET profile_endpoint VUndefined
            plain_429_world plain_429_world (VStr "access-1") []
            (answers 429 (Malformed "Too Many Requests")) []
            (Response 429 (Malformed "Too Many Requests")) "Too Many Requests"
            _ eq_refl eq_refl eq_refl eq_refl _ eq_refl).
  - vm_compute; reflexivity.
  - discriminate.
Defined.

Lemma unreachable_server_witness :
  completion_of (request_in profile_endpoint VUndefined quiet_world)
  = Throw (TypeError "fetch failed") /\
  events_of (request_in profile_endpoint VUndefined quiet_world) =
  [] ++ [Fetch (url_of profile_endpoint)
           (WithBearer (or_default VUndefined) (VStr "access-1"))].
Proof.
  refine (unreachable_server unused_StringToNumber ID SECRET profile_endpoint VUndefined
            quiet_world quiet_world (VStr "access-1") [] _ eq_refl eq_refl
            (or_introl eq_refl)).
  vm_compute; reflexivity.
Defined.

Lemma refresh_failure_after_401_witness :
  request_in profile_endpoint VUndefined refresh_503_world =
  Run (Throw authentication_failed)
      (world_of (request_in profile_endpoint VUndefined refresh_503_world))
      ([] ++ Fetch (url_of profile_endpoint)
               (WithBearer (or_default VUndefined) (VStr "access-1"))
             :: [Refreshing;
                 Fetch token_url (RefreshForm ID SECRET (VStr "refresh-1"))])
  /\ count is_resource_request
       [Refreshing; Fetch token_url (RefreshForm ID SECRET (VStr "refresh-1"))] = 0%nat.
Proof.
  refine (refresh_failure_after_401 unused_StringToNumber ID SECRET
            profile_endpoint VUndefined
            refresh_503_world refresh_503_world
            (world_of (request_in profile_endpoint VUndefined refresh_503_world))
            (VStr "access-1") [] _
            (answers 401 (Document (errors_of "expired_token")))
            [answers 503 (Document (errors_of "system"))]
            (Response 401 (Document (errors_of "expired_token")))
            (FitbitApiError
               (Around "Token refresh failed: " (errors_of "system") EmptyString)
               503 (errors_of "system"))
            _ eq_refl eq_refl eq_refl eq_refl eq_refl _);
    vm_compute; reflexivity.
Defined.

Lemma operations_urls_witness :
  (exists more,
     events_of (getProfile unused_StringToNumber ID SECRET served_world) =
     [] ++ Fetch "https://api.fitbit.com/1/user/-/profile.json"
             (WithBearer (VObj []) (VStr "access-1")) :: more) /\
  (exists more,
     events_of (getWeightLogs unused_StringToNumber ID SECRET
                  "2023-10-15" "2023-11-14" served_world) =
     [] ++ Fetch "https://api.fitbit.com/1/user/-/body/log/weight/date/2023-10-15/2023-11-14.json"
             (WithBearer (VObj []) (VStr "access-1")) :: more) /\
  (exists more,
     events_of (getBodyFatLogs unused_StringToNumber ID SECRET
                  "2023-10-15" "2023-11-14" served_world) =
     [] ++ Fetch "https://api.fitbit.com/1/user/-/body/log/fat/date/2023-10-15/2023-11-14.json"
             (WithBearer (VObj []) (VStr "access-1")) :: more) /\
  (exists more,
     events_of (getWeightGoal unused_StringToNumber ID SECRET served_world) =
     [] ++ Fetch "https://api.fitbit.com/1/user/-/body/log/weight/goal.json"
             (WithBearer (VObj []) (VStr "access-1")) :: more) /\
  (exists more,
     events_of (getBodyFatGoal unused_StringToNumber ID SECRET served_world) =
     [] ++ Fetch "https://api.fitbit.com/1/user/-/body/log/fat/goal.json"
             (WithBearer (VObj []) (VStr "access-1")) :: more).
Proof.
  refine (proj2 (operations_urls unused_StringToNumber ID SECRET
                   "2023-10-15" "2023-11-14" served_world)
            (VStr "access-1") served_world [] _ eq_refl).
  vm_compute; reflexivity.
Defined.

Lemma expiry_after_refresh_witness :
  isTokenExpired unused_StringToNumber
    (at_time (t0 + 3600000) (world_of (refresh_in granted_world)))
  = Run (Return (now (world_of (refresh_in granted_world)) + 28800 * 1000 - 300000
                 <=? t0 + 3600000))
      (at_time (t0 + 3600000) (world_of (refresh_in granted_world))) [].
Proof.
  refine (expiry_after_refresh unused_StringToNumber ID SECRET granted_world
            (world_of (refresh_in granted_world))
            (tokens_of "access-2" "refresh-2" 28800)
            (events_of (refresh_in granted_world)) 28800 (t0 + 3600000)
            _ eq_refl _ _).
  - vm_compute; reflexivity.
  - discriminate.
  - vm_compute; discriminate.
Defined.

Abbreviation run_main :=
  (main unused_StringToNumber ID SECRET fixed_toISOString plain_days_earlier).

Lemma main_ends_witness :
  run_main empty_disk = Run (Return (Exited 1)) empty_disk [].
Proof.
  exact (proj2 (main_ends unused_StringToNumber ID SECRET fixed_toISOString
                  plain_days_earlier empty_disk) eq_refl).
Defined.

Lemma main_stops_at_first_failure_witness :
  run_main quiet_world
  = Run (Return (Exited 1)) quiet_world
      [Fetch "https://api.fitbit.com/1/user/-/profile.json"
         (WithBearer (VObj []) (VStr "access-1"))]
  /\ run_main weightless_world =
     Run (Return (Exited 1))
       (awaited (awaited weightless_world (answers 200 (Document profile))
                   [answers 500 (Document (errors_of "system"))])
          (answers 500 (Document (errors_of "system"))) [])
       ([Fetch "https://api.fitbit.com/1/user/-/profile.json"
           (WithBearer (VObj []) (VStr "access-1"))]
        ++ [Fetch "https://api.fitbit.com/1/user/-/body/log/weight/date/2023-11-14/2023-11-14.json"
              (WithBearer (VObj []) (VStr "access-1"))]).
Proof.
  split.
  - refine (proj1 (main_stops_at_first_failure unused_StringToNumber ID SECRET
                     fixed_toISOString plain_days_earlier quiet_world eq_refl)
              (TypeError "fetch failed") _ _ _).
    vm_compute; reflexivity.
  - refine (proj2 (main_stops_at_first_failure unused_StringToNumber ID SECRET
                     fixed_toISOString plain_days_earlier weightless_world eq_refl)
              profile
              (awaited weightless_world (answers 200 (Document profile))
                 [answers 500 (Document (errors_of "system"))])
              [Fetch "https://api.fitbit.com/1/user/-/profile.json"
                 (WithBearer (VObj []) (VStr "access-1"))]
              (request_failed 500 (errors_of "system"))
              (awaited (awaited weightless_world (answers 200 (Document profile))
                          [answers 500 (Document (errors_of "system"))])
                 (answers 500 (Document (errors_of "system"))) [])
              [Fetch "https://api.fitbit.com/1/user/-/body/log/weight/date/2023-11-14/2023-11-14.json"
                 (WithBearer (VObj []) (VStr "access-1"))]
              _ eq_refl eq_refl eq_refl _);
      vm_compute; reflexivity.
Defined.

Lemma main_finished_witness :
  exists profileData weightData fatData w1 w2 ev1 ev2 ev3,
    getProfile unused_StringToNumber ID SECRET main_world
    = Run (Return profileData) w1 ev1 /\
    getWeightLogs unused_StringToNumber ID SECRET
      (fst (formatDate fixed_toISOString (plain_days_earlier 30 (now w1)),
            formatDate fixed_toISOString (now w1)))
      (snd (formatDate fixed_toISOString (plain_days_earlier 30 (now w1)),
            formatDate fixed_toISOString (now w1))) w1
    = Run (Return weightData) w2 ev2 /\
    getBodyFatLogs unused_StringToNumber ID SECRET
      (fst (formatDate fixed_toISOString (plain_days_earlier 30 (now w1)),
            formatDate fixed_toISOString (now w1)))
      (snd (formatDate fixed_toISOString (plain_days_earlier 30 (now w1)),
            formatDate fixed_toISOString (now w1))) w2
    = Run (Return fatData) (world_of (run_main main_world)) ev3 /\
    events_of (run_main main_world) = ev1 ++ ev2 ++ ev3.
Proof.
  refine (main_finished unused_StringToNumber ID SECRET fixed_toISOString
            plain_days_earlier main_world (world_of (run_main main_world))
            (events_of (run_main main_world)) _).
  vm_compute; reflexivity.
Defined.
